(** * AuctionLab: the bid admission path of the auction and user services

    A shallow embedding of the two Go services of the repository:

    - the user service ([UserService], port 8080), which owns the users and
      their balances;
    - the auction service ([AuctionService], port 8081), which owns the
      auctions and the per-auction list of accepted bids and which calls the
      user service over HTTP while it admits a bid.

    Go's [float64] is modelled by the IEEE 754 binary64 instance of
    [spec_float]; Go's [map[int]T] by [gmap Z T]; [time.Time] by an instant
    in [Z] (nanoseconds); the global variables of each service by a record
    that every handler receives and returns.  The sections of a handler that
    run between two acquisitions of a mutex or between two remote calls are
    separate functions, so that both the sequential run of a handler and the
    interleaving of several handlers can be written down. *)

From Stdlib Require Import ZArith Bool List Lia.
From Stdlib Require Import Floats.SpecFloat.
From stdpp Require Import base option list gmap strings.

Local Open Scope string_scope.
Local Open Scope list_scope.
Local Open Scope Z_scope.

(** ** float64 *)

Module Float64.

Definition prec : Z := 53.
Definition emax : Z := 1024.

Abbreviation float64 := spec_float.

Definition zero : float64 := S754_zero false.

(** [x + y], [-x] and the comparisons [x <= y], [x < y], [x >= y],
    [x == y] of Go, all false on NaN. *)
Definition add (x y : float64) : float64 := SFadd prec emax x y.
Definition neg (x : float64) : float64 := SFopp x.
Definition leb (x y : float64) : bool := SFleb x y.
Definition ltb (x y : float64) : bool := SFltb x y.
Definition geb (x y : float64) : bool := SFleb y x.
Definition eqb (x y : float64) : bool := SFeqb x y.

(** The float64 nearest to an integer (exact below 2^53). *)
Definition of_Z (z : Z) : float64 := binary_normalize prec emax z 0 false.

Definition is_nan (x : float64) : bool :=
  match x with S754_nan => true | _ => false end.

(** Neither NaN nor an infinity: the values a JSON number can carry.
    [encoding/json] refuses to decode a number outside the float64 range
    and refuses to encode NaN and the infinities. *)
Definition is_finite (x : float64) : bool :=
  match x with
  | S754_zero _ | S754_finite _ _ _ => true
  | S754_infinity _ | S754_nan => false
  end.

(** [round_micro m e] is [m * 2^e * 10^6] rounded to an integer, ties to
    even: the digits that [%f] (six digits after the point) prints. *)
Definition round_micro (m : positive) (e : Z) : Z :=
  let n := Z.pos m * 1000000 in
  match e with
  | Z.neg p =>
      let d := 2 ^ Z.pos p in
      let q := n / d in
      match Z.compare (2 * (n mod d)) d with
      | Lt => q
      | Gt => q + 1
      | Eq => if Z.even q then q else q + 1
      end
  | _ => n * 2 ^ e
  end.

(** The value [strconv.ParseFloat] reads back from the text that
    [fmt.Sprintf("%f", x)] left in a URL query.  A finite [x] is printed
    with six decimals and parsed to the nearest float64.  [NaN] prints as
    ["NaN"] and parses to NaN; [-Inf] survives; the [+] of ["+Inf"] is a
    space once the query is unescaped, the parse fails and the ignored
    error leaves 0. *)
Definition sprintf_f_parse (x : float64) : float64 :=
  match x with
  | S754_nan => S754_nan
  | S754_infinity true => S754_infinity true
  | S754_infinity false => zero
  | S754_zero s => S754_zero s
  | S754_finite s m e =>
      match round_micro m e with
      | Z.pos q => SFdiv prec emax (S754_finite s q 0) (S754_finite false 1000000 0)
      | _ => S754_zero s
      end
  end.

End Float64.

Import Float64.

(** ** int

    Go's [int] and [time.Duration] are 64 bits wide here, and their
    arithmetic wraps around. *)

Definition wrap64 (z : Z) : Z := (z + 2 ^ 63) mod 2 ^ 64 - 2 ^ 63.

(** ** net/http *)

Module Http.

Definition StatusOK : Z := 200.
Definition StatusCreated : Z := 201.
Definition StatusBadRequest : Z := 400.
Definition StatusPaymentRequired : Z := 402.
Definition StatusForbidden : Z := 403.
Definition StatusNotFound : Z := 404.
Definition StatusMethodNotAllowed : Z := 405.
Definition StatusConflict : Z := 409.
Definition StatusInternalServerError : Z := 500.
Definition StatusServiceUnavailable : Z := 503.

(** What a handler writes: [http.Error(w, msg, code)], or a status line
    followed by the JSON encoding of a payload. *)
Inductive Response (A : Type) : Type :=
| Error (code : Z) (msg : string)
| Json (code : Z) (payload : A).
Arguments Error {A} code msg.
Arguments Json {A} code payload.

Definition StatusCode {A} (r : Response A) : Z :=
  match r with Error code _ => code | Json code _ => code end.

(** The fate of one request sent to the other service.  [Delivered]: the
    handler ran and the caller has its response.  [Unreachable]: the
    handler never ran, the caller has an error.  [TimedOut]: the handler
    ran, but the caller gave up or lost the connection before the response
    arrived, and has an error. *)
Inductive Net : Type := Delivered | Unreachable | TimedOut.

(** A remote call on a handler [h] over the service state [S]: the state
    the remote service is left in, and the response when there is one
    ([None] is the caller's [err != nil]). *)
Definition call {S A} (net : Net) (h : S -> S * Response A) (s : S)
  : S * option (Response A) :=
  match net with
  | Delivered => let '(s', r) := h s in (s', Some r)
  | Unreachable => (s, None)
  | TimedOut => let '(s', _) := h s in (s', None)
  end.

End Http.

Import Http.

(** ** The user service *)

Module UserService.

Record User : Type := mkUser
  { ID : Z; Name : string; Email : string; Balance : float64 }.

(** The globals [users] and [nextUserID]. *)
Record State : Type := mkState
  { users : gmap Z User; nextUserID : Z }.

Definition init : State := {| users := ∅; nextUserID := 1 |}.

(** [user.Balance += amount] *)
Definition credit (u : User) (amount : float64) : User :=
  {| ID := ID u; Name := Name u; Email := Email u;
     Balance := add (Balance u) amount |}.

(** [newUser.ID = nextUserID] *)
Definition withID (u : User) (id : Z) : User :=
  {| ID := id; Name := Name u; Email := Email u; Balance := Balance u |}.

(** The body is [None] when the JSON decoder fails. *)
Definition createUserHandler (method : string) (body : option User)
    (s : State) : State * Response User :=
  if negb (String.eqb method "POST") then
    (s, Error StatusMethodNotAllowed "Method not allowed")
  else match body with
  | None => (s, Error StatusBadRequest "Invalid user data")
  | Some newUser =>
      if existsb (fun '(_, user) => String.eqb (Email user) (Email newUser))
                 (map_to_list (users s))
      then (s, Error StatusConflict "Email already in use")
      else
        let newUser := withID newUser (nextUserID s) in
        ({| users := <[nextUserID s := newUser]> (users s);
            nextUserID := wrap64 (nextUserID s + 1) |},
         Json StatusCreated newUser)
  end.

(** [id] is [None] when [strconv.Atoi] fails on the path suffix. *)
Definition getUserHandler (method : string) (id : option Z) (s : State)
  : State * Response User :=
  if negb (String.eqb method "GET") then
    (s, Error StatusMethodNotAllowed "Method not allowed")
  else match id with
  | None => (s, Error StatusBadRequest "Invalid user ID")
  | Some id =>
      match users s !! id with
      | None => (s, Error StatusNotFound "User not found")
      | Some user => (s, Json StatusOK user)
      end
  end.

Record BalanceCheck : Type := mkBalanceCheck
  { CanBid : bool; CheckedBalance : float64 }.

(** [userID] and [amount] are the values parsed from the query. *)
Definition checkBalanceHandler (method : string) (userID : Z)
    (amount : float64) (s : State) : State * Response BalanceCheck :=
  if negb (String.eqb method "GET") then
    (s, Error StatusMethodNotAllowed "Method not allowed")
  else match users s !! userID with
  | None => (s, Error StatusNotFound "User not found")
  | Some user =>
      (s, Json StatusOK {| CanBid := geb (Balance user) amount;
                           CheckedBalance := Balance user |})
  end.

Record BalanceUpdate : Type := mkBalanceUpdate
  { UserID : Z; Amount : float64 }.

Definition updateBalanceHandler (method : string)
    (body : option BalanceUpdate) (s : State) : State * Response User :=
  if negb (String.eqb method "PUT") then
    (s, Error StatusMethodNotAllowed "Method not allowed")
  else match body with
  | None => (s, Error StatusBadRequest "Invalid data")
  | Some update =>
      match users s !! UserID update with
      | None => (s, Error StatusNotFound "User not found")
      | Some user =>
          if ltb (add (Balance user) (Amount update)) zero then
            (s, Error StatusBadRequest "Insufficient funds")
          else
            let user := credit user (Amount update) in
            ({| users := <[UserID update := user]> (users s);
                nextUserID := nextUserID s |},
             Json StatusOK user)
      end
  end.


End UserService.

(** ** The auction service *)

Module AuctionService.

Record Auction : Type := mkAuction
  { ID : Z; Item : string; SellerID : Z; StartTime : Z; EndTime : Z;
    StartBid : float64; CurrentBid : float64; BuyNow : float64 }.

Record Bid : Type := mkBid
  { UserID : Z; AuctionID : Z; Amount : float64; Timestamp : Z }.

Record CreateAuctionRequest : Type := mkCreateAuctionRequest
  { reqItem : string; reqSellerID : Z; reqDuration : Z;
    reqStartBid : float64; reqBuyNow : float64 }.

(** The globals [auctions], [bids] and [nextAuctionID]. *)
Record State : Type := mkState
  { auctions : gmap Z Auction; bids : gmap Z (list Bid);
    nextAuctionID : Z }.

Definition init : State :=
  {| auctions := ∅; bids := ∅; nextAuctionID := 1 |}.

(** The auction service together with the user service it calls. *)
Record World : Type := mkWorld
  { local : State; remote : UserService.State }.

(** [t.After(u)] and [t.Before(u)] are strict. *)
Definition After (t u : Z) : bool := Z.ltb u t.
Definition Before (t u : Z) : bool := Z.ltb t u.

Definition Hour : Z := 3600000000000.

(** [bids[id]], which is [nil] for an absent key. *)
Definition ledger (s : State) (id : Z) : list Bid := default [] (bids s !! id).

(** [auction.CurrentBid = amount] on the handler's copy of the record. *)
Definition withCurrentBid (a : Auction) (amount : float64) : Auction :=
  {| ID := ID a; Item := Item a; SellerID := SellerID a;
     StartTime := StartTime a; EndTime := EndTime a;
     StartBid := StartBid a; CurrentBid := amount; BuyNow := BuyNow a |}.

(** [newBid.Timestamp = time.Now()] *)
Definition withTimestamp (b : Bid) (now : Z) : Bid :=
  {| UserID := UserID b; AuctionID := AuctionID b; Amount := Amount b;
     Timestamp := now |}.

(** [createAuctionHandler].  [now1] and [now2] are the two readings of
    the clock; the conversion of the duration to nanoseconds wraps at 64
    bits. *)
Definition createAuctionHandler (method : string)
    (body : option CreateAuctionRequest) (net : Net) (now1 now2 : Z)
    (w : World) : World * Response Auction :=
  if negb (String.eqb method "POST") then
    (w, Error StatusMethodNotAllowed "Method not allowed")
  else match body with
  | None => (w, Error StatusBadRequest "Invalid auction data")
  | Some req =>
      let '(u, resp) :=
        call net (UserService.getUserHandler "GET" (Some (reqSellerID req)))
             (remote w) in
      let w := {| local := local w; remote := u |} in
      match resp with
      | None => (w, Error StatusBadRequest "Seller not found")
      | Some resp =>
          if negb (Z.eqb (StatusCode resp) StatusOK) then
            (w, Error StatusBadRequest "Seller not found")
          else
            let s := local w in
            let newAuction :=
              {| ID := nextAuctionID s; Item := reqItem req;
                 SellerID := reqSellerID req; StartTime := now1;
                 EndTime := now2 + wrap64 (reqDuration req * Hour);
                 StartBid := reqStartBid req; CurrentBid := reqStartBid req;
                 BuyNow := reqBuyNow req |} in
            ({| local :=
                  {| auctions := <[nextAuctionID s := newAuction]> (auctions s);
                     bids := bids s;
                     nextAuctionID := wrap64 (nextAuctionID s + 1) |};
                remote := remote w |},
             Json StatusCreated newAuction)
      end
  end.

(** [getAllAuctionsHandler].  Go ranges over a map in an unspecified
    order; the list is given in the order of [map_to_list]. *)
Definition getAllAuctionsHandler (method : string) (s : State)
  : State * Response (list Auction) :=
  if negb (String.eqb method "GET") then
    (s, Error StatusMethodNotAllowed "Method not allowed")
  else (s, Json StatusOK (snd <$> map_to_list (auctions s))).

(** [listAuctionsHandler].  The clock is read once per auction visited:
    [clock id] is the reading taken for the entry under the key [id]. *)
Definition listAuctionsHandler (method : string) (clock : Z -> Z) (s : State)
  : State * Response (list Auction) :=
  if negb (String.eqb method "GET") then
    (s, Error StatusMethodNotAllowed "Method not allowed")
  else
    (s, Json StatusOK
          (snd <$> List.filter (fun '(id, auction) => Before (clock id) (EndTime auction))
                               (map_to_list (auctions s)))).

Record BidAccepted : Type := mkBidAccepted
  { Status : string; Message : string; NewBid : float64 }.

(** *** [placeBidHandler], section by section *)

(** From the method check to the price check: the decoded body ([None]
    when the decoder fails), the copy of the auction read under the read
    lock, and the three validations made on that copy once the lock is
    released.  Nothing is written. *)
Definition validateBid (method : string) (body : option Bid) (now : Z)
    (s : State) : Response BidAccepted + Auction * Bid :=
  if negb (String.eqb method "POST") then
    inl (Error StatusMethodNotAllowed "Method not allowed")
  else match body with
  | None => inl (Error StatusBadRequest "Invalid bid data")
  | Some newBid =>
      match auctions s !! AuctionID newBid with
      | None => inl (Error StatusNotFound "Auction not found")
      | Some auction =>
          if After now (EndTime auction) then
            inl (Error StatusForbidden "Auction has ended")
          else if leb (Amount newBid) (CurrentBid auction) then
            inl (Error StatusBadRequest "Bid must be higher than current bid")
          else inr (auction, newBid)
      end
  end.

(** The GET on [/users/check_balance].  The amount travels as [%f] text.
    The user service answers 200 with an empty body when it cannot encode
    the balance (NaN or an infinity), and a body that is not the JSON
    object fails the caller's decoder.  [None]: the handler goes on. *)
Definition checkFunds (net : Net) (newBid : Bid) (u : UserService.State)
  : UserService.State * option (Response BidAccepted) :=
  let '(u, resp) :=
    call net (UserService.checkBalanceHandler "GET" (UserID newBid)
                (sprintf_f_parse (Amount newBid))) u in
  match resp with
  | None => (u, Some (Error StatusServiceUnavailable "User service unavailable"))
  | Some resp =>
      if negb (Z.eqb (StatusCode resp) StatusOK) then
        (u, Some (Error StatusInternalServerError "Failed to check user balance"))
      else match resp with
      | Error _ _ =>
          (u, Some (Error StatusInternalServerError "Invalid balance response"))
      | Json _ balanceResponse =>
          if negb (is_finite (UserService.CheckedBalance balanceResponse)) then
            (u, Some (Error StatusInternalServerError "Invalid balance response"))
          else if negb (UserService.CanBid balanceResponse) then
            (u, Some (Error StatusPaymentRequired "Insufficient funds"))
          else (u, None)
      end
  end.

(** The PUT on [/users/update_balance] with the amount negated.
    [json.Marshal] fails exactly on NaN and the infinities. *)
Definition deductFunds (net : Net) (newBid : Bid) (u : UserService.State)
  : UserService.State * option (Response BidAccepted) :=
  if negb (is_finite (neg (Amount newBid))) then
    (u, Some (Error StatusInternalServerError "Internal server error"))
  else
    let updateData :=
      {| UserService.UserID := UserID newBid;
         UserService.Amount := neg (Amount newBid) |} in
    let '(u, respUpdate) :=
      call net (UserService.updateBalanceHandler "PUT" (Some updateData)) u in
    match respUpdate with
    | None => (u, Some (Error StatusServiceUnavailable "User service unavailable"))
    | Some respUpdate =>
        if negb (Z.eqb (StatusCode respUpdate) StatusOK) then
          (u, Some (Error StatusInternalServerError "Failed to deduct user balance"))
        else (u, None)
    end.

(** The section under the write lock, and the reply.  [auction] is the
    copy read by [validateBid]. *)
Definition commitBid (now : Z) (auction : Auction) (newBid : Bid) (s : State)
  : State * Response BidAccepted :=
  let auction := withCurrentBid auction (Amount newBid) in
  let newBid := withTimestamp newBid now in
  ({| auctions := <[AuctionID newBid := auction]> (auctions s);
      bids := <[AuctionID newBid := (ledger s (AuctionID newBid) ++ [newBid])%list]> (bids s);
      nextAuctionID := nextAuctionID s |},
   Json StatusOK {| Status := "success"; Message := "Bid accepted";
                    NewBid := Amount newBid |}).

(** What one run of the handler meets: the clock at the closing-time
    check and under the write lock, and the fate of its two calls. *)
Record Env : Type := mkEnv
  { now_validate : Z; net_check : Net; net_update : Net; now_commit : Z }.

(** *** [placeBidHandler], run without interruption *)
Definition placeBidHandler (env : Env) (method : string) (body : option Bid)
    (w : World) : World * Response BidAccepted :=
  match validateBid method body (now_validate env) (local w) with
  | inl resp => (w, resp)
  | inr (auction, newBid) =>
      let '(u, resp) := checkFunds (net_check env) newBid (remote w) in
      let w := {| local := local w; remote := u |} in
      match resp with
      | Some resp => (w, resp)
      | None =>
          let '(u, resp) := deductFunds (net_update env) newBid (remote w) in
          let w := {| local := local w; remote := u |} in
          match resp with
          | Some resp => (w, resp)
          | None =>
              let '(s, resp) := commitBid (now_commit env) auction newBid (local w) in
              ({| local := s; remote := remote w |}, resp)
          end
      end
  end.

(** *** [placeBidHandler], interleaved

    Each request is served by its own goroutine.  A request in flight is
    at one of the points where the handler holds no lock and is not
    inside the user service; [advance] runs it to the next such point. *)
Inductive InFlight : Type :=
| Received (method : string) (body : option Bid)
| Validated (auction : Auction) (newBid : Bid)
| FundsChecked (auction : Auction) (newBid : Bid)
| Debited (auction : Auction) (newBid : Bid)
| Replied (resp : Response BidAccepted).

Definition advance (env : Env) (r : InFlight) (w : World) : World * InFlight :=
  match r with
  | Received method body =>
      match validateBid method body (now_validate env) (local w) with
      | inl resp => (w, Replied resp)
      | inr (auction, newBid) => (w, Validated auction newBid)
      end
  | Validated auction newBid =>
      let '(u, resp) := checkFunds (net_check env) newBid (remote w) in
      ({| local := local w; remote := u |},
       match resp with Some resp => Replied resp | None => FundsChecked auction newBid end)
  | FundsChecked auction newBid =>
      let '(u, resp) := deductFunds (net_update env) newBid (remote w) in
      ({| local := local w; remote := u |},
       match resp with Some resp => Replied resp | None => Debited auction newBid end)
  | Debited auction newBid =>
      let '(s, resp) := commitBid (now_commit env) auction newBid (local w) in
      ({| local := s; remote := remote w |}, Replied resp)
  | Replied resp => (w, Replied resp)
  end.

(** The service with its requests in flight, and a schedule: the list of
    the positions of the requests that move, in order. *)
Definition System : Type := World * list (Env * InFlight).

Definition schedule1 (i : nat) (sys : System) : System :=
  match snd sys !! i with
  | None => sys
  | Some (env, r) =>
      let '(w, r') := advance env r (fst sys) in
      (w, <[i := (env, r')]> (snd sys))
  end.

Definition schedule (order : list nat) (sys : System) : System :=
  fold_left (fun sys i => schedule1 i sys) order sys.

(** Requests served one after the other. *)
Fixpoint serve (reqs : list (Env * string * option Bid)) (w : World)
  : World * list (Response BidAccepted) :=
  match reqs with
  | [] => (w, [])
  | (env, method, body) :: reqs =>
      let '(w, resp) := placeBidHandler env method body w in
      let '(w, resps) := serve reqs w in
      (w, resp :: resps)
  end.

End AuctionService.

(** * Vocabulary of the properties and worlds for the examples *)

Section Vocabulary.

Import AuctionService.

(** ** Predicates and outcomes *)

(** [0 <= x]: [x] is a number and is not below zero. *)
Definition nonneg (x : float64) : bool := leb zero x.

(** The state the user service is left in by a debit of [amount]. *)
Definition debited (u : UserService.State) (userID : Z) (user : UserService.User)
    (amount : float64) : UserService.State :=
  {| UserService.users :=
       <[userID := UserService.credit user (neg amount)]> (UserService.users u);
     UserService.nextUserID := UserService.nextUserID u |}.

Definition bid_too_low : Response BidAccepted :=
  Error StatusBadRequest "Bid must be higher than current bid".
Definition auction_ended : Response BidAccepted :=
  Error StatusForbidden "Auction has ended".
Definition insufficient_funds : Response BidAccepted :=
  Error StatusPaymentRequired "Insufficient funds".
Definition bid_accepted (amount : float64) : Response BidAccepted :=
  Json StatusOK {| Status := "success"; Message := "Bid accepted"; NewBid := amount |}.

(** Every stored price is a number: neither NaN nor an infinity. *)
Definition prices_finite (s : State) : Prop :=
  forall id auction,
    auctions s !! id = Some auction -> is_finite (CurrentBid auction) = true.

(** A request that moves four times without another request moving in
    between is a run of [placeBidHandler]. *)
Definition advance4 (env : Env) (r : InFlight) (w : World) : World * InFlight :=
  let '(w, r) := advance env r w in
  let '(w, r) := advance env r w in
  let '(w, r) := advance env r w in
  advance env r w.

(** ** Worlds for the examples, built with the services' own handlers *)

(** A user service with one user, for the examples. *)
Definition one_user (id : Z) (balance : Z) : UserService.State :=
  {| UserService.users :=
       {[ id := {| UserService.ID := id; UserService.Name := "alice";
                   UserService.Email := "alice@example.org";
                   UserService.Balance := of_Z balance |} ]};
     UserService.nextUserID := id + 1 |}.

Definition debit_120 : option UserService.BalanceUpdate :=
  Some {| UserService.UserID := 1; UserService.Amount := neg (of_Z 120) |}.

Definition register (name email : string) (balance : Z) (u : UserService.State)
  : UserService.State :=
  fst (UserService.createUserHandler "POST"
         (Some {| UserService.ID := 0; UserService.Name := name;
                  UserService.Email := email;
                  UserService.Balance := of_Z balance |}) u).

Definition open_auction (seller startBid hours now : Z) (w : World) : World :=
  fst (createAuctionHandler "POST"
         (Some {| reqItem := "vase"; reqSellerID := seller; reqDuration := hours;
                  reqStartBid := of_Z startBid; reqBuyNow := zero |})
         Delivered now now w).

(** User 1 sells; user 2 holds 150, user 3 holds 50, user 4 holds 500. *)
Definition four_users : UserService.State :=
  register "dave" "dave@example.org" 500
    (register "carol" "carol@example.org" 50
       (register "bob" "bob@example.org" 150
          (register "alice" "alice@example.org" 0 UserService.init))).

(** Auction 1 opens at time 1000 for one hour at the price [startBid]. *)
Definition market (startBid : Z) : World :=
  open_auction 1 startBid 1 1000 {| local := init; remote := four_users |}.

Definition closing_time : Z := 1000 + Hour.

Definition bid (user amount : Z) : Bid :=
  {| UserID := user; AuctionID := 1; Amount := of_Z amount; Timestamp := 0 |}.

(** A run that meets a reachable user service and the clock at [now]. *)
Definition calm (now : Z) : Env :=
  {| now_validate := now; net_check := Delivered; net_update := Delivered;
     now_commit := now + 1 |}.

Definition price (w : World) (id : Z) : option float64 :=
  CurrentBid <$> auctions (local w) !! id.

Definition balance (w : World) (id : Z) : option float64 :=
  UserService.Balance <$> UserService.users (remote w) !! id.

(** Two bids on auction 1, open at the price 50: user 4 bids 150 and
    user 2 bids 100.  Both are validated before either is committed. *)
Definition two_bidders : System :=
  (market 50,
   [ (calm 2000, Received "POST" (Some (bid 4 150)));
     (calm 2001, Received "POST" (Some (bid 2 100))) ]).

Definition both_validated_first : list nat := [0; 1; 0; 0; 0; 1; 1; 1]%nat.

Definition request (sys : System) (i : nat) : option InFlight :=
  snd <$> snd sys !! i.


(** ** Counting and interleaving *)

(** Whether a request was an accepted bid on the auction [id]. *)
Definition accepted_on (id : Z) (body : option Bid) (resp : Response BidAccepted)
  : bool :=
  match body with
  | Some newBid => (AuctionID newBid =? id) && (StatusCode resp =? StatusOK)
  | None => false
  end.

(** The number of accepted bids on [id] among requests and their replies. *)
Fixpoint commits_on (id : Z) (reqs : list (Env * string * option Bid))
    (resps : list (Response BidAccepted)) : nat :=
  match reqs, resps with
  | (_, _, body) :: reqs, resp :: resps =>
      ((if accepted_on id body resp then 1 else 0) + commits_on id reqs resps)%nat
  | _, _ => 0%nat
  end.

(** The copy of the auction that a request in flight holds, with its bid. *)
Definition held_copy (r : InFlight) : option (Auction * Bid) :=
  match r with
  | Validated auction newBid | FundsChecked auction newBid
  | Debited auction newBid => Some (auction, newBid)
  | Received _ _ | Replied _ => None
  end.

(** The copy a request holds is the stored record of its auction up to the
    current price. *)
Definition copy_agrees (s : State) (r : InFlight) : Prop :=
  forall auction newBid,
    held_copy r = Some (auction, newBid) ->
    exists stored,
      auctions s !! AuctionID newBid = Some stored /\
      withCurrentBid stored (CurrentBid auction) = auction.

Definition copies_agree (sys : System) : Prop :=
  Forall (fun er => copy_agrees (local (fst sys)) (snd er)) (snd sys).

(** Whether the request about to move is about to commit a bid on [id]. *)
Definition commits_here (id : Z) (r : option (Env * InFlight)) : nat :=
  match r with
  | Some (_, Debited _ newBid) => if Z.eqb (AuctionID newBid) id then 1%nat else 0%nat
  | _ => 0%nat
  end.

(** The number of commits on the auction [id] along a schedule. *)
Fixpoint commits_along (id : Z) (order : list nat) (sys : System) : nat :=
  match order with
  | [] => 0%nat
  | i :: order =>
      (commits_here id (snd sys !! i) + commits_along id order (schedule1 i sys))%nat
  end.

(** ** Invariants of the two stores *)


(** Every user is stored under its own id, below the next id to give. *)
Definition user_ids_fresh (u : UserService.State) : Prop :=
  forall k user,
    UserService.users u !! k = Some user ->
    UserService.ID user = k /\ k < UserService.nextUserID u.

(** A 64-bit counter that [++] does not wrap. *)
Definition can_grow (n : Z) : Prop := - 2 ^ 63 <= n < 2 ^ 63 - 1.

(** The amount of the last bid of a ledger, or [start] for an empty one. *)
Definition last_amount (start : float64) (l : list Bid) : float64 :=
  match last l with
  | Some b => Amount b
  | None => start
  end.

(** What the auction table and the ledgers keep under every interleaving:
    auctions are stored under their own id, below the next id to give; a
    ledger belongs to a stored auction and holds bids on that auction only;
    and the current price of an auction is the amount of the last bid of its
    ledger, or its start bid while the ledger is empty. *)
Record store_wf (s : State) : Prop := mk_store_wf
  { wf_fresh : forall k a, auctions s !! k = Some a -> k < nextAuctionID s;
    wf_id : forall k a, auctions s !! k = Some a -> ID a = k;
    wf_ledger : forall k l, bids s !! k = Some l ->
                  is_Some (auctions s !! k) /\ Forall (fun b => AuctionID b = k) l;
    wf_price : forall k a, auctions s !! k = Some a ->
                 CurrentBid a = last_amount (StartBid a) (ledger s k) }.

(** [rising low amounts]: each amount is strictly above the one before it,
    the first one above [low]. *)
Fixpoint rising (low : float64) (amounts : list float64) : Prop :=
  match amounts with
  | [] => True
  | x :: rest => ltb low x = true /\ rising x rest
  end.

(** In every ledger the amounts rise, starting above the start bid. *)
Definition ledgers_rising (s : State) : Prop :=
  forall k a,
    auctions s !! k = Some a -> rising (StartBid a) (Amount <$> ledger s k).

(** The longest duration in hours that fits 64 bits of nanoseconds. *)
Definition max_hours : Z := 2562047.

(** The record that [createAuctionHandler] builds for a request. *)
Definition opened (s : State) (req : CreateAuctionRequest) (now1 now2 : Z)
  : Auction :=
  {| ID := nextAuctionID s; Item := reqItem req; SellerID := reqSellerID req;
     StartTime := now1; EndTime := now2 + wrap64 (reqDuration req * Hour);
     StartBid := reqStartBid req; CurrentBid := reqStartBid req;
     BuyNow := reqBuyNow req |}.

(** The float64 next above 150: 150 + 2^-45. *)
Definition just_above_150 : float64 := S754_finite false 5277655813324801 (-45).



End Vocabulary.

(** * Properties *)

(** ** float64 comparisons and sums *)

Section Float64Facts.

Lemma eqb_leb (x y : float64) : eqb x y = true -> leb x y = true.
Proof.
  unfold eqb, leb, SFeqb, SFleb.
  destruct (SFcompare x y) as [[ | | ] | ]; congruence.
Qed.

Lemma compare_cont_opp (p q : positive) :
  Pos.compare_cont Eq q p = CompOpp (Pos.compare_cont Eq p q).
Proof. apply (Pos.compare_antisym p q). Qed.

(** Swapping the operands of a comparison mirrors its result. *)
Lemma SFcompare_swap (x y : float64) :
  SFcompare y x = CompOpp <$> SFcompare x y.
Proof.
  destruct x as [sx | sx | | sx mx ex], y as [sy | sy | | sy my ey];
    try reflexivity;
    try (destruct sx; reflexivity);
    try (destruct sy; reflexivity);
    try (destruct sx, sy; reflexivity).
  cbn. f_equal.
  rewrite (Z.compare_antisym ex ey), (compare_cont_opp mx my).
  destruct sx, sy; try reflexivity;
    destruct (ex ?= ey); cbn; try reflexivity;
    destruct (Pos.compare_cont Eq mx my); reflexivity.
Qed.

Lemma SFcompare_numbers (x y : float64) :
  is_nan x = false -> is_nan y = false -> is_Some (SFcompare x y).
Proof.
  destruct x, y; cbn; try discriminate; intros _ _; eexists; reflexivity.
Qed.

(** On numbers, [not (x <= y)] is [y < x]. *)
Lemma leb_false_ltb (x y : float64) :
  is_nan x = false -> is_nan y = false -> leb x y = false -> ltb y x = true.
Proof.
  intros Hx Hy. unfold leb, ltb, SFleb, SFltb. rewrite (SFcompare_swap x y).
  destruct (SFcompare_numbers x y Hx Hy) as [c ->].
  destruct c; cbn; congruence.
Qed.

Lemma nonneg_of_not_below (x : float64) :
  is_nan x = false -> ltb x zero = false -> nonneg x = true.
Proof.
  destruct x as [s | s | | s m e]; cbn; try discriminate; try reflexivity;
    destruct s; cbn; congruence.
Qed.

(** Shifting and rounding a mantissa that is not negative never gives a
    negative one, so rounding never produces NaN. *)
Lemma shr_1_nonneg (mrs : shr_record) :
  0 <= shr_m mrs -> 0 <= shr_m (shr_1 mrs).
Proof.
  destruct mrs as [m r s]. cbn.
  destruct m as [ | [p | p | ] | p]; cbn; lia.
Qed.

Lemma iter_shr_1_nonneg (p : positive) (mrs : shr_record) :
  0 <= shr_m mrs -> 0 <= shr_m (SpecFloat.iter_pos shr_1 p mrs).
Proof.
  revert mrs. induction p as [p IH | p IH | ]; intros mrs H; cbn.
  - apply IH, IH, shr_1_nonneg, H.
  - apply IH, IH, H.
  - apply shr_1_nonneg, H.
Qed.

Lemma shr_fexp_nonneg (m e : Z) (l : location) :
  0 <= m -> 0 <= shr_m (fst (shr_fexp prec emax m e l)).
Proof.
  intros H. unfold shr_fexp, shr.
  assert (H0 : 0 <= shr_m (shr_record_of_loc m l))
    by (destruct l as [ | [ | | ]]; exact H).
  destruct (fexp prec emax (Zdigits2 m + e) - e); cbn;
    auto using iter_shr_1_nonneg.
Qed.

Lemma round_nearest_even_nonneg (m : Z) (l : location) :
  0 <= m -> 0 <= round_nearest_even m l.
Proof.
  intros H. destruct l as [ | [ | | ]]; cbn; try lia.
  destruct (Z.even m); lia.
Qed.

Lemma binary_round_aux_not_nan (s : bool) (m e : Z) (l : location) :
  0 <= m -> is_nan (binary_round_aux prec emax s m e l) = false.
Proof.
  intros H. unfold binary_round_aux.
  pose proof (shr_fexp_nonneg m e l H) as H1.
  destruct (shr_fexp prec emax m e l) as [mrs' e']. cbn in H1.
  pose proof (shr_fexp_nonneg _ e' loc_Exact
                (round_nearest_even_nonneg _ (loc_of_shr_record mrs') H1)) as H2.
  destruct (shr_fexp prec emax _ e' loc_Exact) as [mrs'' e'']. cbn in H2.
  destruct (shr_m mrs'') as [ | q | q]; [reflexivity | | lia].
  destruct (e'' <=? emax - prec); reflexivity.
Qed.

Lemma binary_normalize_not_nan (m e : Z) (sz : bool) :
  is_nan (binary_normalize prec emax m e sz) = false.
Proof.
  destruct m as [ | p | p]; cbn; [reflexivity | | ];
    unfold binary_round;
    destruct (shl_align p e _) as [mz ez];
    apply binary_round_aux_not_nan; lia.
Qed.

(** A sum is NaN only if an operand is, or if the operands are the two
    opposite infinities. *)
Lemma add_not_nan (x y : float64) :
  nonneg x = true -> is_finite y = true -> is_nan (add x y) = false.
Proof.
  destruct x as [sx | sx | | sx mx ex], y as [sy | sy | | sy my ey];
    cbn; try discriminate; intros; try reflexivity.
  - destruct sx, sy; reflexivity.
  - apply binary_normalize_not_nan.
Qed.

End Float64Facts.

(** Case analysis on the scrutinee of the outermost [match] or [if] of a
    hypothesis or of the goal. *)
Ltac break_match :=
  match goal with
  | H : context [match ?x with _ => _ end] |- _ => destruct x eqn:?
  | |- context [match ?x with _ => _ end] => destruct x eqn:?
  end.

(** ** The user service: balance updates *)

Section UserServiceFacts.

Import UserService.

(** The one path of [updateBalanceHandler] that writes. *)
Lemma updateBalance_accept (update : BalanceUpdate) (user : User) (s : State) :
  users s !! UserID update = Some user ->
  ltb (add (Balance user) (Amount update)) zero = false ->
  updateBalanceHandler "PUT" (Some update) s =
    ({| users := <[UserID update := credit user (Amount update)]> (users s);
        nextUserID := nextUserID s |},
     Json StatusOK (credit user (Amount update))).
Proof.
  intros Hu Hlt. unfold updateBalanceHandler. cbn [String.eqb negb].
  rewrite Hu, Hlt. reflexivity.
Qed.

Lemma updateBalance_insufficient (update : BalanceUpdate) (user : User) (s : State) :
  users s !! UserID update = Some user ->
  ltb (add (Balance user) (Amount update)) zero = true ->
  updateBalanceHandler "PUT" (Some update) s =
    (s, Error StatusBadRequest "Insufficient funds").
Proof.
  intros Hu Hlt. unfold updateBalanceHandler. cbn [String.eqb negb].
  rewrite Hu, Hlt. reflexivity.
Qed.

(** Every run of [updateBalanceHandler] either answers with an error and
    writes nothing, or is the accepting path above. *)
Lemma updateBalance_cases (method : string) (body : option BalanceUpdate)
    (s s' : State) (resp : Response User) :
  updateBalanceHandler method body s = (s', resp) ->
  (s' = s /\ exists code msg, resp = Error code msg /\ code <> StatusOK) \/
  (exists update user,
      method = "PUT" /\ body = Some update /\
      users s !! UserID update = Some user /\
      ltb (add (Balance user) (Amount update)) zero = false /\
      s' = {| users := <[UserID update := credit user (Amount update)]> (users s);
              nextUserID := nextUserID s |} /\
      resp = Json StatusOK (credit user (Amount update))).
Proof.
  unfold updateBalanceHandler. intros H.
  assert (Hrej : forall code msg, code <> StatusOK ->
            (s, Error code msg) = (s', resp) ->
            s' = s /\ exists code msg, resp = Error code msg /\ code <> StatusOK)
    by (intros code msg Hc E; inv E; eauto).
  destruct (String.eqb method "PUT") eqn:Hm; cbn [negb] in H;
    [ | left; eapply Hrej; [ | exact H]; discriminate ].
  apply String.eqb_eq in Hm.
  destruct body as [update | ];
    [ | left; eapply Hrej; [ | exact H]; discriminate ].
  destruct (users s !! UserID update) as [user | ] eqn:Hu;
    [ | left; eapply Hrej; [ | exact H]; discriminate ].
  destruct (ltb (add (Balance user) (Amount update)) zero) eqn:Hlt;
    [ left; eapply Hrej; [ | exact H]; discriminate | ].
  inv H. right. exists update, user. auto 10.
Qed.

(** C10.  A balance update whose sum with the stored balance is below zero is
    answered 400 "Insufficient funds" and writes nothing; and for an amount
    that a JSON body can carry, every user whose balance is at least zero
    before the update has a balance of at least zero after it. *)
Theorem updateBalance_keeps_balances_nonneg
    (method : string) (body : option BalanceUpdate) (s s' : State)
    (resp : Response User) :
  updateBalanceHandler method body s = (s', resp) ->
  (forall update user,
      method = "PUT" -> body = Some update ->
      users s !! UserID update = Some user ->
      ltb (add (Balance user) (Amount update)) zero = true ->
      resp = Error StatusBadRequest "Insufficient funds" /\ s' = s) /\
  ((forall update, body = Some update -> is_finite (Amount update) = true) ->
   forall id user,
     users s !! id = Some user -> nonneg (Balance user) = true ->
     exists user', users s' !! id = Some user' /\ nonneg (Balance user') = true).
Proof.
  intros H. split.
  - intros update user -> -> Hu Hlt.
    rewrite (updateBalance_insufficient update user s Hu Hlt) in H.
    inv H. auto.
  - intros Hfin id user Hid Hpos.
    destruct (updateBalance_cases _ _ _ _ _ H)
      as [[-> _] | (update & target & -> & -> & Hu & Hlt & -> & ->)].
    + eauto.
    + cbn [users]. destruct (decide (UserID update = id)) as [<- | Hne].
      * rewrite lookup_insert_eq. eexists; split; [reflexivity | ].
        rewrite Hu in Hid. inv Hid. cbn [credit Balance].
        apply nonneg_of_not_below; [ | exact Hlt].
        apply add_not_nan; auto.
      * rewrite lookup_insert_ne by exact Hne. eauto.
Qed.

Lemma updateBalance_keeps_balances_nonneg_witness :
  (Error StatusBadRequest "Insufficient funds" =
     Error (A := User) StatusBadRequest "Insufficient funds" /\
   one_user 1 100 = one_user 1 100) /\
  exists user',
    users (fst (updateBalanceHandler "PUT" debit_120 (one_user 1 150))) !! 1
      = Some user' /\ nonneg (Balance user') = true.
Proof.
  split.
  - refine (proj1 (updateBalance_keeps_balances_nonneg
                     "PUT" debit_120 (one_user 1 100) _ _ _) _ _ _ _ _ _);
      [ vm_compute; reflexivity | reflexivity | reflexivity
      | vm_compute; reflexivity | vm_compute; reflexivity ].
  - refine (proj2 (updateBalance_keeps_balances_nonneg
                     "PUT" debit_120 (one_user 1 150) _ _ _) _ 1 _ _ _);
      [ apply surjective_pairing
      | intros update E; inv E; vm_compute; reflexivity
      | vm_compute; reflexivity | vm_compute; reflexivity ].
Defined.

End UserServiceFacts.

(** ** The auction service: the sections of [placeBidHandler] *)

Section PlaceBidSections.

Import AuctionService.

(** A bid passes [validateBid] exactly on the path through its three
    checks, each made on the copy of the auction read from the table. *)
Lemma validateBid_inr (method : string) (body : option Bid) (now : Z)
    (s : State) (auction : Auction) (newBid : Bid) :
  validateBid method body now s = inr (auction, newBid) ->
  method = "POST" /\ body = Some newBid /\
  auctions s !! AuctionID newBid = Some auction /\
  After now (EndTime auction) = false /\
  leb (Amount newBid) (CurrentBid auction) = false.
Proof.
  unfold validateBid. intros H.
  destruct (String.eqb method "POST") eqn:Hm; cbn [negb] in H; [ | discriminate].
  apply String.eqb_eq in Hm.
  destruct body as [b | ]; [ | discriminate].
  destruct (auctions s !! AuctionID b) as [a | ] eqn:Ha; [ | discriminate].
  destruct (After now (EndTime a)) eqn:Hend; [discriminate | ].
  destruct (leb (Amount b) (CurrentBid a)) eqn:Hle; [discriminate | ].
  inv H. auto.
Qed.

(** The statuses [validateBid] rejects with. *)
Lemma validateBid_inl (method : string) (body : option Bid) (now : Z)
    (s : State) (resp : Response BidAccepted) :
  validateBid method body now s = inl resp ->
  exists code msg, resp = Error code msg /\
    (code = StatusMethodNotAllowed \/ code = StatusBadRequest \/
     code = StatusNotFound \/ code = StatusForbidden).
Proof.
  unfold validateBid. intros H.
  repeat break_match; inv H; eauto 10.
Qed.

(** What [commitBid] writes. *)
Lemma commitBid_auctions (now : Z) (auction : Auction) (newBid : Bid) (s : State) :
  auctions (fst (commitBid now auction newBid s)) =
    <[AuctionID newBid := withCurrentBid auction (Amount newBid)]> (auctions s).
Proof. reflexivity. Qed.

Lemma commitBid_bids (now : Z) (auction : Auction) (newBid : Bid) (s : State) :
  bids (fst (commitBid now auction newBid s)) =
    <[AuctionID newBid := ledger s (AuctionID newBid) ++ [withTimestamp newBid now]]>
      (bids s).
Proof. reflexivity. Qed.

Lemma commitBid_nextAuctionID (now : Z) (auction : Auction) (newBid : Bid) (s : State) :
  nextAuctionID (fst (commitBid now auction newBid s)) = nextAuctionID s.
Proof. reflexivity. Qed.

Lemma commitBid_reply (now : Z) (auction : Auction) (newBid : Bid) (s : State) :
  snd (commitBid now auction newBid s) =
    Json StatusOK {| Status := "success"; Message := "Bid accepted";
                     NewBid := Amount newBid |}.
Proof. reflexivity. Qed.

(** [checkFunds] only reads, and rejects with 503, 500 or 402. *)
Lemma checkFunds_reads (net : Net) (newBid : Bid) (u : UserService.State) :
  fst (checkFunds net newBid u) = u.
Proof.
  unfold checkFunds, call, UserService.checkBalanceHandler.
  cbn [String.eqb negb].
  destruct net; repeat break_match; simplify_eq; reflexivity.
Qed.

Lemma checkFunds_Some (net : Net) (newBid : Bid) (u u' : UserService.State)
    (resp : Response BidAccepted) :
  checkFunds net newBid u = (u', Some resp) ->
  exists code msg, resp = Error code msg /\
    (code = StatusServiceUnavailable \/ code = StatusInternalServerError \/
     code = StatusPaymentRequired).
Proof.
  unfold checkFunds. intros H.
  repeat break_match; simplify_eq; eauto 10.
Qed.

(** [checkFunds] lets the handler go on only for a bidder the user
    service knows, whose balance is at least the amount it read from the
    query. *)
Lemma checkFunds_None (net : Net) (newBid : Bid) (u u' : UserService.State) :
  checkFunds net newBid u = (u', None) ->
  u' = u /\ net = Delivered /\
  exists user,
    UserService.users u !! UserID newBid = Some user /\
    geb (UserService.Balance user) (sprintf_f_parse (Amount newBid)) = true.
Proof.
  intros H. pose proof (checkFunds_reads net newBid u) as Hr.
  rewrite H in Hr. cbn in Hr. subst u'. split; [reflexivity | ].
  revert H. unfold checkFunds, call, UserService.checkBalanceHandler.
  cbn [String.eqb negb].
  destruct net; [ | discriminate | ].
  - destruct (UserService.users u !! UserID newBid) as [user | ] eqn:Hu;
      cbn; [ | discriminate].
    destruct (is_finite (UserService.Balance user)); cbn; [ | discriminate].
    destruct (geb (UserService.Balance user) (sprintf_f_parse (Amount newBid)))
      eqn:Hge; cbn; [ | discriminate].
    eauto.
  - destruct (UserService.users u !! UserID newBid); discriminate.
Qed.

Lemma neg_finite (x : float64) : is_finite (neg x) = is_finite x.
Proof. destruct x; reflexivity. Qed.

(** [deductFunds] lets the handler go on only after a debit that the user
    service accepted and answered. *)
Lemma deductFunds_None (net : Net) (newBid : Bid) (u u' : UserService.State) :
  deductFunds net newBid u = (u', None) ->
  is_finite (Amount newBid) = true /\ net = Delivered /\
  exists user,
    UserService.users u !! UserID newBid = Some user /\
    ltb (add (UserService.Balance user) (neg (Amount newBid))) zero = false /\
    u' = debited u (UserID newBid) user (Amount newBid).
Proof.
  unfold deductFunds. rewrite neg_finite.
  destruct (is_finite (Amount newBid)); cbn [negb]; [ | discriminate].
  unfold call.
  destruct net; [ | discriminate | ].
  - destruct (UserService.updateBalanceHandler _ _ u) as [u1 r] eqn:Hupd.
    destruct (updateBalance_cases _ _ _ _ _ Hupd)
      as [(-> & code & msg & -> & Hcode)
         | (update & user & _ & Hb & Hu & Hlt & -> & ->)].
    + cbn [StatusCode]. destruct (Z.eqb_spec code StatusOK); [contradiction | ].
      discriminate.
    + inv Hb. cbn. intros H. inv H. eauto 10.
  - destruct (UserService.updateBalanceHandler _ _ u). discriminate.
Qed.

(** [deductFunds] rejects with 500 or 503. *)
Lemma deductFunds_Some (net : Net) (newBid : Bid) (u u' : UserService.State)
    (resp : Response BidAccepted) :
  deductFunds net newBid u = (u', Some resp) ->
  exists code msg, resp = Error code msg /\
    (code = StatusInternalServerError \/ code = StatusServiceUnavailable) /\
    (code = StatusInternalServerError -> u' = u).
Proof.
  unfold deductFunds.
  destruct (is_finite (neg (Amount newBid))); cbn [negb];
    [ | intros H; inv H; eauto 10 ].
  unfold call.
  destruct net.
  - destruct (UserService.updateBalanceHandler _ _ u) as [u1 r] eqn:Hupd.
    destruct (updateBalance_cases _ _ _ _ _ Hupd)
      as [(-> & code & msg & -> & Hcode)
         | (update & user & _ & Hb & Hu & Hlt & -> & ->)].
    + cbn [StatusCode]. destruct (Z.eqb_spec code StatusOK); [contradiction | ].
      cbn. intros H. inv H. eauto 10.
    + cbn. discriminate.
  - intros H. inv H. do 2 eexists. split; [reflexivity | ].
    split; [auto | discriminate].
  - destruct (UserService.updateBalanceHandler _ _ u).
    intros H. inv H. do 2 eexists. split; [reflexivity | ].
    split; [auto | discriminate].
Qed.

End PlaceBidSections.

(** ** The auction service: [placeBidHandler] as a whole *)

Section PlaceBidHandler.

Import AuctionService.

Lemma World_eta (w : World) : {| local := local w; remote := remote w |} = w.
Proof. destruct w; reflexivity. Qed.


Lemma placeBid_ended (env : Env) (newBid : Bid) (auction : Auction) (w : World) :
  auctions (local w) !! AuctionID newBid = Some auction ->
  After (now_validate env) (EndTime auction) = true ->
  placeBidHandler env "POST" (Some newBid) w = (w, auction_ended).
Proof.
  intros Ha Hend. unfold placeBidHandler, validateBid. cbn [String.eqb negb].
  rewrite Ha, Hend. reflexivity.
Qed.

Lemma placeBid_too_low (env : Env) (newBid : Bid) (auction : Auction) (w : World) :
  auctions (local w) !! AuctionID newBid = Some auction ->
  After (now_validate env) (EndTime auction) = false ->
  leb (Amount newBid) (CurrentBid auction) = true ->
  placeBidHandler env "POST" (Some newBid) w = (w, bid_too_low).
Proof.
  intros Ha Hend Hle. unfold placeBidHandler, validateBid. cbn [String.eqb negb].
  rewrite Ha, Hend, Hle. reflexivity.
Qed.

Lemma validateBid_pass (now : Z) (newBid : Bid) (auction : Auction) (s : State) :
  auctions s !! AuctionID newBid = Some auction ->
  After now (EndTime auction) = false ->
  leb (Amount newBid) (CurrentBid auction) = false ->
  validateBid "POST" (Some newBid) now s = inr (auction, newBid).
Proof.
  intros Ha Hend Hle. unfold validateBid. cbn [String.eqb negb].
  rewrite Ha, Hend, Hle. reflexivity.
Qed.

(** The rejection of a valid bid whose bidder cannot pay. *)
Lemma placeBid_insufficient (env : Env) (newBid : Bid) (auction : Auction)
    (user : UserService.User) (w : World) :
  auctions (local w) !! AuctionID newBid = Some auction ->
  After (now_validate env) (EndTime auction) = false ->
  leb (Amount newBid) (CurrentBid auction) = false ->
  net_check env = Delivered ->
  UserService.users (remote w) !! UserID newBid = Some user ->
  is_finite (UserService.Balance user) = true ->
  geb (UserService.Balance user) (sprintf_f_parse (Amount newBid)) = false ->
  placeBidHandler env "POST" (Some newBid) w = (w, insufficient_funds).
Proof.
  intros Ha Hend Hle Hnet Hu Hfin Hge. unfold placeBidHandler.
  rewrite (validateBid_pass _ _ _ _ Ha Hend Hle).
  unfold checkFunds, call, UserService.checkBalanceHandler.
  cbn [String.eqb negb]. rewrite Hnet, Hu. cbn. rewrite Hfin, Hge. cbn.
  rewrite World_eta. reflexivity.
Qed.

(** The accepting path. *)
Lemma placeBid_accept (env : Env) (newBid : Bid) (auction : Auction)
    (user : UserService.User) (w : World) :
  auctions (local w) !! AuctionID newBid = Some auction ->
  After (now_validate env) (EndTime auction) = false ->
  leb (Amount newBid) (CurrentBid auction) = false ->
  net_check env = Delivered ->
  net_update env = Delivered ->
  UserService.users (remote w) !! UserID newBid = Some user ->
  is_finite (UserService.Balance user) = true ->
  geb (UserService.Balance user) (sprintf_f_parse (Amount newBid)) = true ->
  is_finite (Amount newBid) = true ->
  ltb (add (UserService.Balance user) (neg (Amount newBid))) zero = false ->
  placeBidHandler env "POST" (Some newBid) w =
    ({| local := fst (commitBid (now_commit env) auction newBid (local w));
        remote := debited (remote w) (UserID newBid) user (Amount newBid) |},
     bid_accepted (Amount newBid)).
Proof.
  intros Ha Hend Hle Hnet1 Hnet2 Hu Hfin Hge Hamt Hlt. unfold placeBidHandler.
  rewrite (validateBid_pass _ _ _ _ Ha Hend Hle).
  unfold checkFunds, call, UserService.checkBalanceHandler.
  cbn [String.eqb negb]. rewrite Hnet1, Hu. cbn. rewrite Hfin, Hge. cbn.
  unfold deductFunds, call. rewrite neg_finite, Hamt, Hnet2. cbn [negb].
  rewrite (updateBalance_accept _ user (remote w)) by assumption.
  reflexivity.
Qed.

(** Every run of [placeBidHandler] is a rejection, which leaves the
    auction service as it was and, unless the status is 503, the user
    service too; or it is the accepting path. *)
Lemma placeBid_cases (env : Env) (method : string) (body : option Bid)
    (w w' : World) (resp : Response BidAccepted) :
  placeBidHandler env method body w = (w', resp) ->
  (local w' = local w /\
   exists code msg, resp = Error code msg /\ code <> StatusOK /\
     (code <> StatusServiceUnavailable -> w' = w)) \/
  (exists auction newBid user,
      validateBid method body (now_validate env) (local w) = inr (auction, newBid) /\
      is_finite (Amount newBid) = true /\
      UserService.users (remote w) !! UserID newBid = Some user /\
      geb (UserService.Balance user) (sprintf_f_parse (Amount newBid)) = true /\
      ltb (add (UserService.Balance user) (neg (Amount newBid))) zero = false /\
      w' = {| local := fst (commitBid (now_commit env) auction newBid (local w));
              remote := debited (remote w) (UserID newBid) user (Amount newBid) |} /\
      resp = bid_accepted (Amount newBid)).
Proof.
  unfold placeBidHandler. intros H.
  destruct (validateBid method body (now_validate env) (local w))
    as [r | [auction newBid]] eqn:Hv.
  { inv H. left. split; [reflexivity | ].
    destruct (validateBid_inl _ _ _ _ _ Hv) as (code & msg & -> & Hc).
    exists code, msg. repeat split; auto.
    destruct Hc as [-> | [-> | [-> | ->]]]; discriminate. }
  destruct (checkFunds (net_check env) newBid (remote w)) as [u1 r1] eqn:Hc.
  destruct r1 as [r1 | ].
  { inv H. left. split; [reflexivity | ].
    pose proof (checkFunds_reads (net_check env) newBid (remote w)) as Hr.
    rewrite Hc in Hr. cbn in Hr. subst u1.
    destruct (checkFunds_Some _ _ _ _ _ Hc) as (code & msg & -> & Hcode).
    exists code, msg. rewrite World_eta. repeat split; auto.
    destruct Hcode as [-> | [-> | ->]]; discriminate. }
  destruct (checkFunds_None _ _ _ _ Hc) as (-> & _ & user & Hu & Hge).
  cbn [local remote] in H.
  destruct (deductFunds (net_update env) newBid (remote w)) as [u2 r2] eqn:Hd.
  destruct r2 as [r2 | ].
  { inv H. left. split; [reflexivity | ].
    destruct (deductFunds_Some _ _ _ _ _ Hd) as (code & msg & -> & Hcode & Hsame).
    exists code, msg. repeat split.
    - destruct Hcode as [-> | ->]; discriminate.
    - intros Hne. destruct Hcode as [-> | ->]; [ | contradiction].
      rewrite Hsame by reflexivity. apply World_eta. }
  destruct (deductFunds_None _ _ _ _ Hd) as (Hfin & _ & user' & Hu' & Hlt & ->).
  rewrite Hu in Hu'. inv Hu'.
  cbn in H. inv H. right. exists auction, newBid, user'. auto 10.
Qed.

End PlaceBidHandler.

(** ** The worlds of the examples *)

Section Scenarios.

Import AuctionService.

Example market_opens_at_start_bid :
  price (market 100) 1 = Some (of_Z 100) /\
  (EndTime <$> auctions (local (market 100)) !! 1) = Some closing_time /\
  balance (market 100) 2 = Some (of_Z 150) /\
  balance (market 100) 3 = Some (of_Z 50).
Proof. vm_compute. auto. Qed.

End Scenarios.

(** ** Validation *)

Section Validation.

Import AuctionService.

Lemma prices_finite_init : prices_finite init.
Proof. intros id auction H. cbn in H. rewrite lookup_empty in H. discriminate. Qed.

(** A decoded creation request carries a finite start bid, and the new
    auction starts at it. *)
Lemma prices_finite_create (method : string) (body : option CreateAuctionRequest)
    (net : Net) (now1 now2 : Z) (w : World) :
  (forall req, body = Some req -> is_finite (reqStartBid req) = true) ->
  prices_finite (local w) ->
  prices_finite (local (fst (createAuctionHandler method body net now1 now2 w))).
Proof.
  intros Hreq Hw. unfold createAuctionHandler.
  destruct (negb (String.eqb method "POST")); [exact Hw | ].
  destruct body as [req | ]; [ | exact Hw].
  destruct (call net _ (remote w)) as [u [resp | ]]; [ | exact Hw].
  destruct (negb (StatusCode resp =? StatusOK)); [exact Hw | ].
  intros id auction. cbn [fst local auctions].
  destruct (decide (nextAuctionID (local w) = id)) as [<- | Hne].
  - rewrite lookup_insert_eq. intros E. inv E. cbn. auto.
  - rewrite lookup_insert_ne by exact Hne. apply Hw.
Qed.

(** An accepted bid stores its amount, which went through [json.Marshal]. *)
Lemma prices_finite_placeBid (env : Env) (method : string) (body : option Bid)
    (w : World) :
  prices_finite (local w) ->
  prices_finite (local (fst (placeBidHandler env method body w))).
Proof.
  intros Hw.
  destruct (placeBidHandler env method body w) as [w' resp] eqn:H.
  cbn [fst].
  destruct (placeBid_cases _ _ _ _ _ _ H)
    as [[-> _] | (auction & newBid & user & _ & Hfin & _ & _ & _ & -> & _)];
    [exact Hw | ].
  intros id a. cbn [local]. rewrite commitBid_auctions.
  destruct (decide (AuctionID newBid = id)) as [<- | Hne].
  - rewrite lookup_insert_eq. intros E. inv E. exact Hfin.
  - rewrite lookup_insert_ne by exact Hne. apply Hw.
Qed.

(** C5.  A bid on an existing auction that has not ended, whose amount
    equals the auction's current price, is answered 400 "Bid must be higher
    than current bid", and the auction service and the user service are
    left as they were. *)
Theorem bid_equal_to_current_price_is_rejected
    (env : Env) (newBid : Bid) (auction : Auction) (w : World) :
  auctions (local w) !! AuctionID newBid = Some auction ->
  After (now_validate env) (EndTime auction) = false ->
  eqb (Amount newBid) (CurrentBid auction) = true ->
  placeBidHandler env "POST" (Some newBid) w =
    (w, Error StatusBadRequest "Bid must be higher than current bid").
Proof.
  intros Ha Hend Heq.
  exact (placeBid_too_low env newBid auction w Ha Hend (eqb_leb _ _ Heq)).
Qed.

Lemma bid_equal_to_current_price_is_rejected_witness :
  placeBidHandler (calm 2000) "POST" (Some (bid 2 100)) (market 100) =
    (market 100, Error StatusBadRequest "Bid must be higher than current bid").
Proof.
  refine (bid_equal_to_current_price_is_rejected
            (calm 2000) (bid 2 100)
            (mkAuction 1 "vase" 1 1000 closing_time (of_Z 100) (of_Z 100) zero)
            (market 100) _ _ _);
    vm_compute; reflexivity.
Defined.

(** C6.  A bid answered 404, 403 or 400 (auction not found, auction ended,
    bid too low; 400 is also the answer to a body that cannot be decoded)
    leaves the auction table, the bid ledger and the users with their
    balances exactly as they were. *)
Theorem validation_rejection_has_no_effect
    (env : Env) (method : string) (body : option Bid) (w w' : World)
    (resp : Response BidAccepted) :
  placeBidHandler env method body w = (w', resp) ->
  StatusCode resp = StatusNotFound \/ StatusCode resp = StatusForbidden \/
    StatusCode resp = StatusBadRequest ->
  auctions (local w') = auctions (local w) /\
  bids (local w') = bids (local w) /\
  UserService.users (remote w') = UserService.users (remote w) /\
  w' = w.
Proof.
  intros H Hcode.
  destruct (placeBid_cases _ _ _ _ _ _ H)
    as [(_ & code & msg & -> & _ & Hsame) | (a & b & u & _ & _ & _ & _ & _ & _ & ->)].
  - cbn in Hcode. rewrite Hsame; [auto | ].
    destruct Hcode as [-> | [-> | ->]]; discriminate.
  - cbn in Hcode. destruct Hcode as [Hc | [Hc | Hc]]; discriminate.
Qed.

Lemma validation_rejection_has_no_effect_witness :
  auctions (local (market 100)) = auctions (local (market 100)) /\
  bids (local (market 100)) = bids (local (market 100)) /\
  UserService.users (remote (market 100)) = UserService.users (remote (market 100)) /\
  market 100 = market 100.
Proof.
  refine (validation_rejection_has_no_effect
            (calm 2000) "POST" (Some (bid 2 90)) (market 100) (market 100)
            (Error StatusBadRequest "Bid must be higher than current bid") _ _).
  - vm_compute. reflexivity.
  - right. right. reflexivity.
Defined.

End Validation.

(** ** The accepted bid *)

Section AcceptedBid.

Import AuctionService.

Lemma ledger_insert_eq (s : State) (id : Z) (l : list Bid) :
  default [] (<[id := l]> (bids s) !! id) = l.
Proof. rewrite lookup_insert_eq. reflexivity. Qed.

(** C9.  A bid answered 200 was a decoded bid on a stored auction, and in
    the auction service it changed the current price of that auction and
    appended one bid to that auction's ledger: the auction's other seven
    fields, every other auction, every other ledger and the next auction id
    are as they were. *)
Theorem accepted_bid_changes_price_and_ledger_only
    (env : Env) (method : string) (body : option Bid) (w w' : World)
    (resp : Response BidAccepted) :
  placeBidHandler env method body w = (w', resp) ->
  StatusCode resp = StatusOK ->
  exists newBid auction auction',
    body = Some newBid /\
    auctions (local w) !! AuctionID newBid = Some auction /\
    auctions (local w') !! AuctionID newBid = Some auction' /\
    CurrentBid auction' = Amount newBid /\
    ID auction' = ID auction /\ Item auction' = Item auction /\
    SellerID auction' = SellerID auction /\
    StartTime auction' = StartTime auction /\
    EndTime auction' = EndTime auction /\
    StartBid auction' = StartBid auction /\
    BuyNow auction' = BuyNow auction /\
    ledger (local w') (AuctionID newBid) =
      ledger (local w) (AuctionID newBid) ++ [withTimestamp newBid (now_commit env)] /\
    (forall id, id <> AuctionID newBid ->
       auctions (local w') !! id = auctions (local w) !! id /\
       bids (local w') !! id = bids (local w) !! id) /\
    nextAuctionID (local w') = nextAuctionID (local w).
Proof.
  intros H Hcode.
  destruct (placeBid_cases _ _ _ _ _ _ H)
    as [(_ & code & msg & -> & Hne & _)
       | (auction & newBid & user & Hv & _ & _ & _ & _ & -> & ->)].
  { cbn in Hcode. contradiction. }
  destruct (validateBid_inr _ _ _ _ _ _ Hv) as (_ & -> & Ha & _ & _).
  exists newBid, auction, (withCurrentBid auction (Amount newBid)).
  cbn [local]. unfold ledger at 1.
  rewrite commitBid_auctions, commitBid_bids, commitBid_nextAuctionID.
  rewrite lookup_insert_eq, ledger_insert_eq.
  repeat (split; [reflexivity || assumption | ]).
  split; [ | reflexivity].
  intros id Hid. rewrite !lookup_insert_ne by congruence. auto.
Qed.

Lemma accepted_bid_changes_price_and_ledger_only_witness :
  exists newBid auction auction',
    Some (bid 2 120) = Some newBid /\
    auctions (local (market 100)) !! AuctionID newBid = Some auction /\
    auctions (local (fst (placeBidHandler (calm 2000) "POST" (Some (bid 2 120))
                            (market 100)))) !! AuctionID newBid = Some auction' /\
    CurrentBid auction' = Amount newBid /\
    ID auction' = ID auction /\ Item auction' = Item auction /\
    SellerID auction' = SellerID auction /\
    StartTime auction' = StartTime auction /\
    EndTime auction' = EndTime auction /\
    StartBid auction' = StartBid auction /\
    BuyNow auction' = BuyNow auction /\
    ledger (local (fst (placeBidHandler (calm 2000) "POST" (Some (bid 2 120))
                          (market 100)))) (AuctionID newBid) =
      ledger (local (market 100)) (AuctionID newBid)
        ++ [withTimestamp newBid (now_commit (calm 2000))] /\
    (forall id, id <> AuctionID newBid ->
       auctions (local (fst (placeBidHandler (calm 2000) "POST" (Some (bid 2 120))
                               (market 100)))) !! id
         = auctions (local (market 100)) !! id /\
       bids (local (fst (placeBidHandler (calm 2000) "POST" (Some (bid 2 120))
                           (market 100)))) !! id
         = bids (local (market 100)) !! id) /\
    nextAuctionID (local (fst (placeBidHandler (calm 2000) "POST" (Some (bid 2 120))
                                 (market 100))))
      = nextAuctionID (local (market 100)).
Proof.
  refine (accepted_bid_changes_price_and_ledger_only
            (calm 2000) "POST" (Some (bid 2 120)) (market 100) _
            (bid_accepted (of_Z 120)) _ _).
  - vm_compute. reflexivity.
  - reflexivity.
Defined.

(** Served without interruption on a table of finite prices, an accepted
    bid stores a price above the one it replaces. *)
Lemma accepted_bid_raises_price (env : Env) (method : string) (body : option Bid)
    (w w' : World) (resp : Response BidAccepted) :
  prices_finite (local w) ->
  placeBidHandler env method body w = (w', resp) ->
  StatusCode resp = StatusOK ->
  exists newBid auction,
    body = Some newBid /\
    auctions (local w) !! AuctionID newBid = Some auction /\
    price w' (AuctionID newBid) = Some (Amount newBid) /\
    ltb (CurrentBid auction) (Amount newBid) = true.
Proof.
  intros Hw H Hcode.
  destruct (placeBid_cases _ _ _ _ _ _ H)
    as [(_ & code & msg & -> & Hne & _)
       | (auction & newBid & user & Hv & Hfin & _ & _ & _ & -> & ->)].
  { cbn in Hcode. contradiction. }
  destruct (validateBid_inr _ _ _ _ _ _ Hv) as (_ & -> & Ha & _ & Hle).
  exists newBid, auction. unfold price. cbn [local].
  rewrite commitBid_auctions, lookup_insert_eq.
  repeat (split; [reflexivity || assumption | ]).
  apply leb_false_ltb; [ | | exact Hle].
  - destruct (Amount newBid); cbn in *; congruence.
  - specialize (Hw _ _ Ha). destruct (CurrentBid auction); cbn in *; congruence.
Qed.

End AcceptedBid.

(** ** The commit and the checks that precede it *)

Section Commit.

Import AuctionService.

Lemma advance4_placeBidHandler (env : Env) (method : string) (body : option Bid)
    (w : World) :
  advance4 env (Received method body) w =
    (fst (placeBidHandler env method body w),
     Replied (snd (placeBidHandler env method body w))).
Proof.
  unfold advance4, placeBidHandler. cbn [advance].
  destruct (validateBid method body (now_validate env) (local w))
    as [resp | [auction newBid]]; [reflexivity | ].
  cbn [advance].
  destruct (checkFunds (net_check env) newBid (remote w)) as [u [resp | ]];
    [reflexivity | ].
  cbn [advance local remote].
  destruct (deductFunds (net_update env) newBid u) as [u' [resp | ]];
    [reflexivity | ].
  cbn [advance local remote].
  destruct (commitBid (now_commit env) auction newBid (local w)); reflexivity.
Qed.



Lemma market_prices_finite (startBid : Z) :
  is_finite (of_Z startBid) = true -> prices_finite (local (market startBid)).
Proof.
  intros Hfin. unfold market, open_auction. apply prices_finite_create.
  - intros req E. inv E. exact Hfin.
  - apply prices_finite_init.
Qed.


End Commit.

(** ** Interleaved bids *)

Section LostUpdate.

Import AuctionService.

(** C2, on the code.  With both bids validated against the price 50 before
    either is committed, both are accepted; the ledger of auction 1 holds
    150 and then 100; and the current price goes 50, 150, 100: the second
    accepted bid lowers it. *)
Theorem interleaved_bids_lower_the_price :
  let first_done := schedule [0; 1; 0; 0; 0]%nat two_bidders in
  let all_done := schedule both_validated_first two_bidders in
  price (fst two_bidders) 1 = Some (of_Z 50) /\
  request first_done 0 = Some (Replied (bid_accepted (of_Z 150))) /\
  price (fst first_done) 1 = Some (of_Z 150) /\
  request all_done 1 = Some (Replied (bid_accepted (of_Z 100))) /\
  price (fst all_done) 1 = Some (of_Z 100) /\
  Amount <$> ledger (local (fst all_done)) 1 = [of_Z 150; of_Z 100] /\
  ltb (of_Z 100) (of_Z 150) = true.
Proof. vm_compute. auto 10. Qed.

(** The same two bids served one after the other: the bid of 100 is
    rejected and the price stays at 150. *)
Example served_in_turn_the_lower_bid_is_rejected :
  let '(w, resps) :=
    serve [ (calm 2000, "POST", Some (bid 4 150));
            (calm 2001, "POST", Some (bid 2 100)) ] (market 50) in
  resps = [bid_accepted (of_Z 150); bid_too_low] /\
  price w 1 = Some (of_Z 150).
Proof. vm_compute. auto. Qed.

End LostUpdate.

(** ** Counting the accepted bids *)

Section Counting.

Import AuctionService.

Lemma placeBid_ledger_length (id : Z) (env : Env) (method : string)
    (body : option Bid) (w : World) :
  length (ledger (local (fst (placeBidHandler env method body w))) id) =
    (length (ledger (local w) id)
     + if accepted_on id body (snd (placeBidHandler env method body w))
       then 1 else 0)%nat.
Proof.
  destruct (placeBidHandler env method body w) as [w' resp] eqn:H. cbn [fst snd].
  destruct (placeBid_cases _ _ _ _ _ _ H)
    as [(-> & code & msg & -> & Hne & _)
       | (auction & newBid & user & Hv & _ & _ & _ & _ & -> & ->)].
  - assert (accepted_on id body (Error code msg) = false) as ->; [ | lia].
    unfold accepted_on. destruct body; [ | reflexivity]. cbn [StatusCode].
    destruct (Z.eqb_spec code StatusOK); [contradiction | ].
    apply andb_false_r.
  - destruct (validateBid_inr _ _ _ _ _ _ Hv) as (_ & -> & _).
    unfold accepted_on. cbn [local StatusCode bid_accepted].
    unfold ledger at 1. rewrite commitBid_bids, andb_true_r.
    destruct (Z.eqb_spec (AuctionID newBid) id) as [<- | Hid].
    + rewrite ledger_insert_eq, length_app. reflexivity.
    + rewrite lookup_insert_ne by exact Hid. unfold ledger. lia.
Qed.

(** C7, as stated, fails.  No reading of the stored auction record counts
    the accepted bids: bidding 120 at once and bidding 110 and then 120
    leave the same record after one and after two accepted bids. *)
Lemma auction_record_has_no_version_counter :
  ~ exists version : Auction -> Z,
      forall env newBid w auction auction',
        snd (placeBidHandler env "POST" (Some newBid) w)
          = bid_accepted (Amount newBid) ->
        auctions (local w) !! AuctionID newBid = Some auction ->
        auctions (local (fst (placeBidHandler env "POST" (Some newBid) w)))
          !! AuctionID newBid = Some auction' ->
        version auction' = version auction + 1.
Proof.
  intros [version Hv].
  set (a100 := mkAuction 1 "vase" 1 1000 closing_time (of_Z 100) (of_Z 100) zero).
  set (a110 := withCurrentBid a100 (of_Z 110)).
  set (a120 := withCurrentBid a100 (of_Z 120)).
  set (w110 := fst (placeBidHandler (calm 2000) "POST" (Some (bid 4 110)) (market 100))).
  assert (H1 : version a120 = version a100 + 1).
  { apply (Hv (calm 2000) (bid 4 120) (market 100)); vm_compute; reflexivity. }
  assert (H2 : version a110 = version a100 + 1).
  { apply (Hv (calm 2000) (bid 4 110) (market 100)); vm_compute; reflexivity. }
  assert (H3 : version a120 = version a110 + 1).
  { apply (Hv (calm 2001) (bid 4 120) w110); vm_compute; reflexivity. }
  lia.
Qed.

(** C7, amended.  The auction record has no version field; the accepted
    bids of an auction are counted by its ledger.  After any requests
    served one after the other, the ledger of an auction is longer than
    before by the number of bids accepted on that auction, one entry for
    each. *)
Theorem ledger_length_counts_accepted_bids
    (id : Z) (reqs : list (Env * string * option Bid)) (w : World) :
  length (ledger (local (fst (serve reqs w))) id) =
    (length (ledger (local w) id) + commits_on id reqs (snd (serve reqs w)))%nat.
Proof.
  revert w. induction reqs as [ | [[env method] body] reqs IH]; intros w.
  - cbn. lia.
  - cbn [serve].
    pose proof (placeBid_ledger_length id env method body w) as Hstep.
    destruct (placeBidHandler env method body w) as [w1 resp].
    specialize (IH w1).
    destruct (serve reqs w1) as [w2 resps].
    cbn [fst snd commits_on] in *. lia.
Qed.

End Counting.

(** ** The closing time *)

Section ClosingTime.

Import AuctionService.

(** At the very instant of its end time an auction is neither after its
    end, for [placeBidHandler], nor before it, for [listAuctionsHandler]. *)
Lemma end_time_is_neither_after_nor_before (t : Z) :
  After t t = false /\ Before t t = false.
Proof. unfold After, Before. rewrite Z.ltb_irrefl. auto. Qed.

(** Whatever the world, a posted bid handled at the end time of its auction
    is never answered "Auction has ended". *)
Lemma bid_at_end_time_is_not_ended (env : Env) (newBid : Bid) (auction : Auction)
    (w : World) :
  auctions (local w) !! AuctionID newBid = Some auction ->
  now_validate env = EndTime auction ->
  StatusCode (snd (placeBidHandler env "POST" (Some newBid) w)) <> StatusForbidden.
Proof.
  intros Ha Hnow.
  pose proof (proj1 (end_time_is_neither_after_nor_before (EndTime auction))) as Hend.
  rewrite <- Hnow in Hend at 1.
  destruct (leb (Amount newBid) (CurrentBid auction)) eqn:Hle.
  { rewrite (placeBid_too_low env newBid auction w Ha Hend Hle). discriminate. }
  unfold placeBidHandler. rewrite (validateBid_pass _ _ _ _ Ha Hend Hle).
  destruct (checkFunds (net_check env) newBid (remote w)) as [u [resp | ]] eqn:Hc.
  { destruct (checkFunds_Some _ _ _ _ _ Hc) as (code & msg & -> & [-> | [-> | ->]]);
      discriminate. }
  cbn [local remote].
  destruct (deductFunds (net_update env) newBid u) as [u' [resp | ]] eqn:Hd.
  { destruct (deductFunds_Some _ _ _ _ _ Hd) as (code & msg & -> & [-> | ->] & _);
      discriminate. }
  cbn. discriminate.
Qed.

(** C4, on the code.  A bid of 120 placed exactly at the closing time of
    auction 1 (price 100, bidder holding 150) is accepted: the price
    becomes 120 and the bidder is debited.  At that same instant
    [listAuctionsHandler] no longer lists the auction as active, and one
    nanosecond later the bid is answered 403. *)
Theorem bid_at_closing_time_is_accepted :
  let at_close := placeBidHandler (calm closing_time) "POST" (Some (bid 2 120))
                    (market 100) in
  (EndTime <$> auctions (local (market 100)) !! 1) = Some closing_time /\
  now_validate (calm closing_time) = closing_time /\
  snd at_close = bid_accepted (of_Z 120) /\
  price (fst at_close) 1 = Some (of_Z 120) /\
  balance (fst at_close) 2 = Some (of_Z 30) /\
  snd (listAuctionsHandler "GET" (fun _ => closing_time) (local (market 100)))
    = Json StatusOK [] /\
  placeBidHandler (calm (closing_time + 1)) "POST" (Some (bid 2 120)) (market 100)
    = (market 100, auction_ended).
Proof. vm_compute. auto 10. Qed.

End ClosingTime.

(** ** End to end *)

Section EndToEnd.

Import AuctionService.

Lemma balances_150_and_50_differ : of_Z 150 <> of_Z 50.
Proof. vm_compute. discriminate. Qed.

(** C8.  On an auction whose price is 100, with a reachable user service
    and before the end time: a bid of 120 by a user holding 150 is
    accepted and the price becomes 120; then a bid of 110 is answered 400
    "Bid must be higher than current bid"; then a bid of 130 by a user
    holding 50 is answered 402 "Insufficient funds"; neither rejection
    writes anything, so the price is 120 after the three bids. *)
Theorem end_to_end_bids
    (env1 env2 env3 : Env) (w : World) (id : Z) (auction : Auction)
    (u1 u2 u3 : Z) (user1 user3 : UserService.User) (t1 t2 t3 : Z) :
  auctions (local w) !! id = Some auction ->
  CurrentBid auction = of_Z 100 ->
  UserService.users (remote w) !! u1 = Some user1 ->
  UserService.Balance user1 = of_Z 150 ->
  UserService.users (remote w) !! u3 = Some user3 ->
  UserService.Balance user3 = of_Z 50 ->
  After (now_validate env1) (EndTime auction) = false ->
  After (now_validate env2) (EndTime auction) = false ->
  After (now_validate env3) (EndTime auction) = false ->
  net_check env1 = Delivered -> net_update env1 = Delivered ->
  net_check env3 = Delivered ->
  exists w1,
    placeBidHandler env1 "POST" (Some (mkBid u1 id (of_Z 120) t1)) w
      = (w1, Json StatusOK {| Status := "success"; Message := "Bid accepted";
                              NewBid := of_Z 120 |}) /\
    price w1 id = Some (of_Z 120) /\
    placeBidHandler env2 "POST" (Some (mkBid u2 id (of_Z 110) t2)) w1
      = (w1, Error StatusBadRequest "Bid must be higher than current bid") /\
    placeBidHandler env3 "POST" (Some (mkBid u3 id (of_Z 130) t3)) w1
      = (w1, Error StatusPaymentRequired "Insufficient funds") /\
    serve [ (env1, "POST", Some (mkBid u1 id (of_Z 120) t1));
            (env2, "POST", Some (mkBid u2 id (of_Z 110) t2));
            (env3, "POST", Some (mkBid u3 id (of_Z 130) t3)) ] w
      = (w1, [ bid_accepted (of_Z 120); bid_too_low; insufficient_funds ]).
Proof.
  intros Ha Hcur Hu1 Hb1 Hu3 Hb3 Hend1 Hend2 Hend3 Hn1 Hn1' Hn3.
  set (b1 := mkBid u1 id (of_Z 120) t1).
  set (w1 := {| local := fst (commitBid (now_commit env1) auction b1 (local w));
                remote := debited (remote w) u1 user1 (of_Z 120) |}).
  assert (Ha1 : auctions (local w1) !! id = Some (withCurrentBid auction (of_Z 120))).
  { unfold w1. cbn [local]. rewrite commitBid_auctions. apply lookup_insert_eq. }
  assert (Hu3' : UserService.users (remote w1) !! u3 = Some user3).
  { unfold w1, debited. cbn [remote UserService.users].
    rewrite lookup_insert_ne; [exact Hu3 | ].
    intros ->. rewrite Hu1 in Hu3. inv Hu3.
    apply balances_150_and_50_differ. congruence. }
  assert (H1 : placeBidHandler env1 "POST" (Some b1) w = (w1, bid_accepted (of_Z 120))).
  { apply (placeBid_accept env1 b1 auction user1 w); try assumption;
      cbn [Amount b1]; rewrite ?Hcur, ?Hb1; vm_compute; reflexivity. }
  assert (H2 : placeBidHandler env2 "POST" (Some (mkBid u2 id (of_Z 110) t2)) w1
               = (w1, bid_too_low)).
  { apply (placeBid_too_low env2 _ (withCurrentBid auction (of_Z 120)) w1);
      [exact Ha1 | exact Hend2 | vm_compute; reflexivity]. }
  assert (H3 : placeBidHandler env3 "POST" (Some (mkBid u3 id (of_Z 130) t3)) w1
               = (w1, insufficient_funds)).
  { apply (placeBid_insufficient env3 _ (withCurrentBid auction (of_Z 120)) user3 w1);
      [exact Ha1 | exact Hend3 | vm_compute; reflexivity | exact Hn3 | exact Hu3'
      | rewrite Hb3; vm_compute; reflexivity
      | cbn [Amount]; rewrite Hb3; vm_compute; reflexivity ]. }
  exists w1. split; [exact H1 | ].
  split; [unfold price; rewrite Ha1; reflexivity | ].
  split; [exact H2 | ]. split; [exact H3 | ].
  cbn [serve]. fold b1. rewrite H1, H2, H3. reflexivity.
Qed.

Lemma end_to_end_bids_witness :
  exists w1,
    placeBidHandler (calm 2000) "POST" (Some (mkBid 2 1 (of_Z 120) 0)) (market 100)
      = (w1, Json StatusOK {| Status := "success"; Message := "Bid accepted";
                              NewBid := of_Z 120 |}) /\
    price w1 1 = Some (of_Z 120) /\
    placeBidHandler (calm 3000) "POST" (Some (mkBid 4 1 (of_Z 110) 0)) w1
      = (w1, Error StatusBadRequest "Bid must be higher than current bid") /\
    placeBidHandler (calm 4000) "POST" (Some (mkBid 3 1 (of_Z 130) 0)) w1
      = (w1, Error StatusPaymentRequired "Insufficient funds") /\
    serve [ (calm 2000, "POST", Some (mkBid 2 1 (of_Z 120) 0));
            (calm 3000, "POST", Some (mkBid 4 1 (of_Z 110) 0));
            (calm 4000, "POST", Some (mkBid 3 1 (of_Z 130) 0)) ] (market 100)
      = (w1, [ bid_accepted (of_Z 120); bid_too_low; insufficient_funds ]).
Proof.
  refine (end_to_end_bids
            (calm 2000) (calm 3000) (calm 4000) (market 100) 1
            (mkAuction 1 "vase" 1 1000 closing_time (of_Z 100) (of_Z 100) zero)
            2 4 3
            (UserService.mkUser 2 "bob" "bob@example.org" (of_Z 150))
            (UserService.mkUser 3 "carol" "carol@example.org" (of_Z 50))
            0 0 0 _ _ _ _ _ _ _ _ _ _ _ _);
    vm_compute; reflexivity.
Defined.

End EndToEnd.

(** ** Resubmitted debits *)

Section Resubmission.

Import UserService.

(** C3, as stated, fails.  The debit request carries a user id and an
    amount and nothing else.  Sent twice to a user holding 300, the debit
    of 120 leaves 60 where one leaves 180.  This is what a retried bid
    meets: the first attempt times out after the user service has applied
    the debit and is answered 503 with no bid recorded, the retry is
    accepted, and the bidder has paid 240 for one bid of 120. *)
Lemma resubmitted_debit_is_applied_twice :
  let once := fst (updateBalanceHandler "PUT" debit_120 (one_user 1 300)) in
  let twice := fst (updateBalanceHandler "PUT" debit_120 once) in
  let timed_out :=
    {| AuctionService.now_validate := 2000; AuctionService.net_check := Delivered;
       AuctionService.net_update := TimedOut; AuctionService.now_commit := 2001 |} in
  let first_try :=
    AuctionService.placeBidHandler timed_out "POST" (Some (bid 4 120)) (market 100) in
  let retry :=
    AuctionService.placeBidHandler (calm 2002) "POST" (Some (bid 4 120)) (fst first_try) in
  (Balance <$> users once !! 1) = Some (of_Z 180) /\
  (Balance <$> users twice !! 1) = Some (of_Z 60) /\
  twice <> once /\
  snd first_try = Error StatusServiceUnavailable "User service unavailable" /\
  AuctionService.ledger (AuctionService.local (fst first_try)) 1 = [] /\
  balance (fst first_try) 4 = Some (of_Z 380) /\
  snd retry = bid_accepted (of_Z 120) /\
  length (AuctionService.ledger (AuctionService.local (fst retry)) 1) = 1%nat /\
  balance (fst retry) 4 = Some (of_Z 260).
Proof.
  cbv zeta. repeat split; try (vm_compute; reflexivity).
  intros E. apply (f_equal (fun s => Balance <$> users s !! 1)) in E.
  vm_compute in E. discriminate.
Qed.

(** C3, amended.  The debit request has no correlation id and is not
    idempotent.  A submission that is rejected writes nothing; each
    submission that is accepted adds the amount to the stored balance, so
    that two accepted submissions of the same request leave the balance at
    (balance + amount) + amount. *)
Theorem resubmitted_update_is_applied_again
    (update : BalanceUpdate) (user : User) (s : State) :
  users s !! UserID update = Some user ->
  let once := fst (updateBalanceHandler "PUT" (Some update) s) in
  let twice := fst (updateBalanceHandler "PUT" (Some update) once) in
  let sum1 := add (Balance user) (Amount update) in
  let sum2 := add sum1 (Amount update) in
  (ltb sum1 zero = true -> once = s /\ twice = s) /\
  (ltb sum1 zero = false ->
   (Balance <$> users once !! UserID update) = Some sum1 /\
   (ltb sum2 zero = true -> twice = once) /\
   (ltb sum2 zero = false ->
    (Balance <$> users twice !! UserID update) = Some sum2)).
Proof.
  intros Hu once twice sum1 sum2. split.
  - intros Hlt. subst once twice.
    rewrite (updateBalance_insufficient update user s Hu Hlt). cbn [fst].
    rewrite (updateBalance_insufficient update user s Hu Hlt). auto.
  - intros Hlt.
    assert (Honce : users once !! UserID update = Some (credit user (Amount update))).
    { subst once. rewrite (updateBalance_accept update user s Hu Hlt).
      cbn [fst users]. apply lookup_insert_eq. }
    split; [rewrite Honce; reflexivity | ]. split.
    + intros Hlt2. subst twice.
      rewrite (updateBalance_insufficient update _ once Honce Hlt2). reflexivity.
    + intros Hlt2. subst twice.
      rewrite (updateBalance_accept update _ once Honce Hlt2).
      cbn [fst users]. rewrite lookup_insert_eq. reflexivity.
Qed.

Lemma resubmitted_update_is_applied_again_witness :
  (Balance <$> users (fst (updateBalanceHandler "PUT" debit_120
                             (fst (updateBalanceHandler "PUT" debit_120
                                     (one_user 1 300))))) !! 1)
    = Some (add (add (of_Z 300) (neg (of_Z 120))) (neg (of_Z 120))).
Proof.
  refine (proj2 (proj2 (proj2 (resubmitted_update_is_applied_again
                   {| UserID := 1; Amount := neg (of_Z 120) |}
                   {| ID := 1; Name := "alice"; Email := "alice@example.org";
                      Balance := of_Z 300 |}
                   (one_user 1 300) _) _)) _);
    vm_compute; reflexivity.
Defined.

End Resubmission.

(** ** Interleaved requests: what every schedule preserves *)

Section Interleaving.

Import AuctionService.

Lemma withCurrentBid_same (a : Auction) : withCurrentBid a (CurrentBid a) = a.
Proof. destruct a; reflexivity. Qed.

Lemma withCurrentBid_twice (a : Auction) (x y : float64) :
  withCurrentBid (withCurrentBid a x) y = withCurrentBid a y.
Proof. reflexivity. Qed.

(** A request touches the auction service only when it commits. *)
Lemma advance_local (env : Env) (r r' : InFlight) (w w' : World) :
  advance env r w = (w', r') ->
  local w' = local w \/
  exists auction newBid,
    r = Debited auction newBid /\
    local w' = fst (commitBid (now_commit env) auction newBid (local w)) /\
    r' = Replied (bid_accepted (Amount newBid)).
Proof.
  destruct r as [method body | a b | a b | a b | resp]; cbn [advance]; intros H.
  - left. repeat break_match; inv H; reflexivity.
  - left. destruct (checkFunds _ _ _). inv H. reflexivity.
  - left. destruct (deductFunds _ _ _). inv H. reflexivity.
  - right. exists a, b. cbn in H. inv H. auto.
  - left. inv H. reflexivity.
Qed.

(** Validation reads and nothing more, whatever else is in flight. *)
Lemma advance_Received_reads (env : Env) (method : string) (body : option Bid)
    (w : World) :
  fst (advance env (Received method body) w) = w.
Proof. cbn [advance]. repeat break_match; reflexivity. Qed.

(** A commit keeps every held copy in agreement with the table. *)
Lemma copy_agrees_commit (now : Z) (a : Auction) (b : Bid) (s : State)
    (r : InFlight) :
  copy_agrees s (Debited a b) -> copy_agrees s r ->
  copy_agrees (fst (commitBid now a b s)) r.
Proof.
  intros Hab Hr a' b' Hheld. rewrite commitBid_auctions.
  destruct (Hr a' b' Hheld) as (stored' & Hs' & Ha').
  destruct (decide (AuctionID b = AuctionID b')) as [E | Hne].
  - destruct (Hab a b eq_refl) as (stored & Hs & Ha).
    rewrite E, lookup_insert_eq. rewrite E, Hs' in Hs. inv Hs.
    eexists. split; [reflexivity | ].
    rewrite <- Ha at 1. rewrite !withCurrentBid_twice. exact Ha'.
  - rewrite lookup_insert_ne by exact Hne. eauto.
Qed.

(** The request that moves holds an agreeing copy afterwards. *)
Lemma copy_agrees_advance (env : Env) (r r' : InFlight) (w w' : World) :
  copy_agrees (local w) r -> advance env r w = (w', r') ->
  copy_agrees (local w') r'.
Proof.
  intros Hr H.
  destruct r as [method body | a b | a b | a b | resp]; cbn [advance] in H.
  - destruct (validateBid method body (now_validate env) (local w))
      as [resp | [a b]] eqn:Hv; inv H; intros a' b' Hheld; [discriminate | ].
    inv Hheld. destruct (validateBid_inr _ _ _ _ _ _ Hv) as (_ & _ & Ha & _).
    exists a'. split; [exact Ha | apply withCurrentBid_same].
  - destruct (checkFunds _ _ _) as [u [resp | ]]; inv H;
      intros a' b' Hheld; [discriminate | ].
    inv Hheld. apply (Hr a' b' eq_refl).
  - destruct (deductFunds _ _ _) as [u [resp | ]]; inv H;
      intros a' b' Hheld; [discriminate | ].
    inv Hheld. apply (Hr a' b' eq_refl).
  - cbn in H. inv H. intros a' b' Hheld. discriminate.
  - inv H. exact Hr.
Qed.

Lemma copies_agree_schedule1 (i : nat) (sys : System) :
  copies_agree sys -> copies_agree (schedule1 i sys).
Proof.
  unfold copies_agree, schedule1. intros Hall.
  destruct (snd sys !! i) as [[env r] | ] eqn:Hi; [ | exact Hall].
  destruct (advance env r (fst sys)) as [w' r'] eqn:Hadv. cbn [fst snd].
  assert (Hr : copy_agrees (local (fst sys)) r).
  { apply (proj1 (Forall_lookup _ _) Hall i (env, r) Hi). }
  apply Forall_insert.
  - destruct (advance_local _ _ _ _ _ Hadv)
      as [-> | (a & b & -> & -> & _)]; [exact Hall | ].
    eapply Forall_impl; [exact Hall | ].
    intros [env0 r0] H0. apply copy_agrees_commit; assumption.
  - exact (copy_agrees_advance _ _ _ _ _ Hr Hadv).
Qed.


(** Requests that have only been received hold no copy. *)
Lemma copies_agree_received (w : World) (reqs : list (Env * string * option Bid)) :
  copies_agree (w, (fun '(env, method, body) => (env, Received method body)) <$> reqs).
Proof.
  unfold copies_agree. cbn [fst snd]. apply Forall_fmap, Forall_forall.
  intros [[env method] body] _ a b Hheld. discriminate.
Qed.


(** In every schedule the ledger of an auction grows by one entry with
    each commit on it, and not otherwise. *)
Lemma interleaved_ledger_length (id : Z) (order : list nat) (sys : System) :
  length (ledger (local (fst (schedule order sys))) id) =
    (length (ledger (local (fst sys)) id) + commits_along id order sys)%nat.
Proof.
  revert sys. induction order as [ | i order IH]; intros sys.
  - cbn. lia.
  - change (schedule (i :: order) sys) with (schedule order (schedule1 i sys)).
    rewrite IH. cbn [commits_along].
    enough (length (ledger (local (fst (schedule1 i sys))) id) =
              (length (ledger (local (fst sys)) id)
               + commits_here id (snd sys !! i))%nat) by lia.
    unfold schedule1, commits_here.
    destruct (snd sys !! i) as [[env r] | ] eqn:Hi; [ | lia].
    destruct (advance env r (fst sys)) as [w' r'] eqn:Hadv. cbn [fst snd].
    destruct (advance_local _ _ _ _ _ Hadv) as [Hsame | (a & b & -> & -> & _)].
    + rewrite Hsame. destruct r as [ | | | a b | ]; try lia.
      exfalso. cbn in Hadv. inv Hadv. cbn [local] in Hsame.
      apply (f_equal (fun s => length (ledger s (AuctionID b)))) in Hsame.
      unfold ledger at 1 in Hsame. cbn [bids] in Hsame.
      rewrite ledger_insert_eq, length_app in Hsame. cbn in Hsame. lia.
    + unfold ledger at 1. rewrite commitBid_bids.
      destruct (Z.eqb_spec (AuctionID b) id) as [<- | Hid].
      * rewrite ledger_insert_eq, length_app. reflexivity.
      * rewrite lookup_insert_ne by exact Hid. unfold ledger. lia.
Qed.

End Interleaving.


(** * Further properties of the two services *)

(** ** The user service: registration and lookup *)

Section Registration.

Import UserService.

(** The email scan of [createUserHandler] finds a stored user with the
    email, or there is none. *)
Lemma email_scan (email : string) (m : gmap Z User) :
  existsb (fun '(_, user) => String.eqb (Email user) email) (map_to_list m) = true
  <-> exists k user, m !! k = Some user /\ Email user = email.
Proof.
  rewrite existsb_exists. split.
  - intros ([k user] & Hin & Heq). exists k, user.
    apply list_elem_of_In, elem_of_map_to_list in Hin.
    apply String.eqb_eq in Heq. auto.
  - intros (k & user & Hk & Heq). exists (k, user). split.
    + apply list_elem_of_In, elem_of_map_to_list, Hk.
    + apply String.eqb_eq, Heq.
Qed.

(** Every run of [createUserHandler] answers with an error and writes
    nothing, or stores the new user under the next id. *)
Lemma createUser_cases (method : string) (body : option User) (s s' : State)
    (resp : Response User) :
  createUserHandler method body s = (s', resp) ->
  (s' = s /\ exists code msg, resp = Error code msg) \/
  (exists newUser,
      method = "POST" /\ body = Some newUser /\
      (forall k user, users s !! k = Some user -> Email user <> Email newUser) /\
      s' = {| users := <[nextUserID s := withID newUser (nextUserID s)]> (users s);
              nextUserID := wrap64 (nextUserID s + 1) |} /\
      resp = Json StatusCreated (withID newUser (nextUserID s))).
Proof.
  unfold createUserHandler. intros H.
  destruct (String.eqb method "POST") eqn:Hm; cbn [negb] in H;
    [ | inv H; left; eauto].
  apply String.eqb_eq in Hm.
  destruct body as [newUser | ]; [ | inv H; left; eauto].
  destruct (existsb _ (map_to_list (users s))) eqn:Hscan; [inv H; left; eauto | ].
  inv H. right. exists newUser. repeat split.
  intros k user Hk Heq.
  assert (Htrue : existsb (fun '(_, user) => String.eqb (Email user) (Email newUser))
                    (map_to_list (users s)) = true)
    by (apply email_scan; eauto).
  congruence.
Qed.

Lemma wrap64_small (n : Z) : - 2 ^ 63 <= n < 2 ^ 63 -> wrap64 n = n.
Proof. intros H. unfold wrap64. rewrite Z.mod_small; lia. Qed.




(** X2.  A posted, decoded user is answered 409 "Email already in use",
    with nothing written, exactly when some stored user has its email. *)
Theorem createUser_conflict_iff_email_taken (newUser : User) (s : State) :
  createUserHandler "POST" (Some newUser) s
    = (s, Error StatusConflict "Email already in use")
  <-> exists k user, users s !! k = Some user /\ Email user = Email newUser.
Proof.
  rewrite <- email_scan. unfold createUserHandler. cbn [String.eqb negb].
  destruct (existsb _ (map_to_list (users s))).
  - split; reflexivity.
  - split; discriminate.
Qed.

(** X3.  While the id counter has not reached the end of its range, a
    registration answered 201 stores the new user under the id it answers,
    keeps every user stored before as it was, adds one user to the table,
    and the ids stay in order: each user is stored under its own id, below
    the next id to give. *)
Theorem createUser_keeps_existing_users (method : string) (body : option User)
    (s s' : State) (created : User) :
  user_ids_fresh s ->
  can_grow (nextUserID s) ->
  createUserHandler method body s = (s', Json StatusCreated created) ->
  ID created = nextUserID s /\
  users s' !! ID created = Some created /\
  users s !! ID created = None /\
  (forall k user, users s !! k = Some user -> users s' !! k = Some user) /\
  size (users s') = S (size (users s)) /\
  nextUserID s' = nextUserID s + 1 /\
  user_ids_fresh s'.
Proof.
  intros Hs Hgrow H.
  destruct (createUser_cases _ _ _ _ _ H)
    as [(_ & code & msg & E) | (u & _ & _ & _ & -> & E)]; [discriminate | ].
  inv E. cbn [ID withID users nextUserID].
  assert (Hnone : users s !! nextUserID s = None).
  { destruct (users s !! nextUserID s) as [user | ] eqn:Hk; [ | reflexivity].
    destruct (Hs _ _ Hk). lia. }
  assert (Hnext : wrap64 (nextUserID s + 1) = nextUserID s + 1)
    by (apply wrap64_small; unfold can_grow in Hgrow; lia).
  rewrite Hnext, lookup_insert_eq.
  split; [reflexivity | ]. split; [reflexivity | ]. split; [exact Hnone | ].
  split; [ | split; [ | split; [reflexivity | ]]].
  - intros k user Hk. rewrite lookup_insert_ne; [exact Hk | ]. congruence.
  - apply map_size_insert_None, Hnone.
  - intros k user. cbn [users nextUserID].
    destruct (decide (nextUserID s = k)) as [<- | Hne].
    + rewrite lookup_insert_eq. intros E. inv E. cbn. lia.
    + rewrite lookup_insert_ne by exact Hne. intros Hk.
      destruct (Hs _ _ Hk). lia.
Qed.

Lemma user_ids_fresh_init : user_ids_fresh init.
Proof. intros k user H. cbn in H. rewrite lookup_empty in H. discriminate. Qed.

Lemma createUser_keeps_existing_users_witness :
  let created := mkUser 1 "bob" "bob@example.org" (of_Z 150) in
  let s' := fst (createUserHandler "POST" (Some created) init) in
  ID created = nextUserID init /\
  users s' !! ID created = Some created /\
  users init !! ID created = None /\
  (forall k user, users init !! k = Some user -> users s' !! k = Some user) /\
  size (users s') = S (size (users init)) /\
  nextUserID s' = nextUserID init + 1 /\
  user_ids_fresh s'.
Proof.
  cbv zeta.
  refine (createUser_keeps_existing_users "POST"
            (Some (mkUser 1 "bob" "bob@example.org" (of_Z 150))) init
            (fst (createUserHandler "POST"
                    (Some (mkUser 1 "bob" "bob@example.org" (of_Z 150))) init))
            (mkUser 1 "bob" "bob@example.org" (of_Z 150))
            user_ids_fresh_init _ _).
  - unfold can_grow. cbn. lia.
  - vm_compute. reflexivity.
Defined.






End Registration.

(** ** The auction service: creating auctions *)

Section Creation.

Import AuctionService.

(** Every run of [createAuctionHandler] answers with an error and writes
    nothing, or found the seller in the user service and stores the new
    auction under the next id. *)
Lemma createAuction_cases (method : string) (body : option CreateAuctionRequest)
    (net : Net) (now1 now2 : Z) (w w' : World) (resp : Response Auction) :
  createAuctionHandler method body net now1 now2 w = (w', resp) ->
  (w' = w /\ exists code msg, resp = Error code msg /\ code <> StatusCreated) \/
  (exists req seller,
      method = "POST" /\ body = Some req /\ net = Delivered /\
      UserService.users (remote w) !! reqSellerID req = Some seller /\
      w' = {| local :=
                {| auctions := <[nextAuctionID (local w) :=
                                   opened (local w) req now1 now2]>
                                 (auctions (local w));
                   bids := bids (local w);
                   nextAuctionID := wrap64 (nextAuctionID (local w) + 1) |};
              remote := remote w |} /\
      resp = Json StatusCreated (opened (local w) req now1 now2)).
Proof.
  unfold createAuctionHandler. intros H.
  assert (Hrej : forall code msg, code <> StatusCreated ->
            ({| local := local w; remote := remote w |}, Error code msg) = (w', resp) ->
            w' = w /\ exists code msg, resp = Error code msg /\ code <> StatusCreated).
  { intros code msg Hc E. inv E. rewrite World_eta. eauto. }
  destruct (String.eqb method "POST") eqn:Hm; cbn [negb] in H.
  2:{ left. destruct w. eapply Hrej; [ | exact H]. discriminate. }
  apply String.eqb_eq in Hm.
  destruct body as [req | ].
  2:{ left. destruct w. eapply Hrej; [ | exact H]. discriminate. }
  unfold call, UserService.getUserHandler in H. cbn [String.eqb negb] in H.
  destruct net.
  - destruct (UserService.users (remote w) !! reqSellerID req) as [seller | ] eqn:Hs;
      cbn in H.
    + right. exists req, seller. inv H. auto 10.
    + left. eapply Hrej; [ | exact H]. discriminate.
  - left. eapply Hrej; [ | exact H]. discriminate.
  - left. destruct (UserService.users (remote w) !! reqSellerID req);
      (eapply Hrej; [ | exact H]; discriminate).
Qed.

(** X7.  [createAuctionHandler] never writes to the user service or to a
    ledger.  Any answer other than 201 leaves the world as it was.  An answer
    of 201 means that the user service was reached and knows the seller;
    the new auction is stored under the id that was next, carries that id,
    the request's item, seller, start bid and buy-now price, starts at the
    first clock reading with its current price equal to its start bid, and
    every other entry of the table is as it was. *)
Theorem createAuction_needs_a_known_seller
    (method : string) (body : option CreateAuctionRequest) (net : Net)
    (now1 now2 : Z) (w w' : World) (resp : Response Auction) :
  createAuctionHandler method body net now1 now2 w = (w', resp) ->
  remote w' = remote w /\
  bids (local w') = bids (local w) /\
  (StatusCode resp <> StatusCreated -> w' = w) /\
  (StatusCode resp = StatusCreated ->
   exists req seller a,
     body = Some req /\ net = Delivered /\
     UserService.users (remote w) !! reqSellerID req = Some seller /\
     resp = Json StatusCreated a /\
     auctions (local w') !! nextAuctionID (local w) = Some a /\
     ID a = nextAuctionID (local w) /\ Item a = reqItem req /\
     SellerID a = reqSellerID req /\ StartTime a = now1 /\
     StartBid a = reqStartBid req /\ CurrentBid a = reqStartBid req /\
     BuyNow a = reqBuyNow req /\
     forall k, k <> nextAuctionID (local w) ->
       auctions (local w') !! k = auctions (local w) !! k).
Proof.
  intros H.
  destruct (createAuction_cases _ _ _ _ _ _ _ _ H)
    as [(-> & code & msg & -> & Hcode)
       | (req & seller & _ & -> & -> & Hs & -> & ->)].
  - repeat split; try reflexivity. cbn. contradiction.
  - cbn [local remote bids auctions StatusCode].
    split; [reflexivity | ]. split; [reflexivity | ].
    split; [contradiction | ]. intros _.
    exists req, seller, (opened (local w) req now1 now2).
    rewrite lookup_insert_eq. repeat split; try assumption.
    intros k Hk. apply lookup_insert_ne. congruence.
Qed.

Lemma createAuction_needs_a_known_seller_witness :
  let req := mkCreateAuctionRequest "vase" 1 1 (of_Z 100) zero in
  let w := {| local := init; remote := four_users |} in
  let run := createAuctionHandler "POST" (Some req) Delivered 1000 1000 w in
  remote (fst run) = remote w /\
  bids (local (fst run)) = bids (local w) /\
  (StatusCode (snd run) <> StatusCreated -> fst run = w) /\
  (StatusCode (snd run) = StatusCreated ->
   exists req' seller a,
     Some req = Some req' /\ Delivered = Delivered /\
     UserService.users (remote w) !! reqSellerID req' = Some seller /\
     snd run = Json StatusCreated a /\
     auctions (local (fst run)) !! nextAuctionID (local w) = Some a /\
     ID a = nextAuctionID (local w) /\ Item a = reqItem req' /\
     SellerID a = reqSellerID req' /\ StartTime a = 1000 /\
     StartBid a = reqStartBid req' /\ CurrentBid a = reqStartBid req' /\
     BuyNow a = reqBuyNow req' /\
     forall k, k <> nextAuctionID (local w) ->
       auctions (local (fst run)) !! k = auctions (local w) !! k).
Proof.
  cbv zeta.
  exact (createAuction_needs_a_known_seller
           "POST" (Some (mkCreateAuctionRequest "vase" 1 1 (of_Z 100) zero))
           Delivered 1000 1000 {| local := init; remote := four_users |}
           _ _ (surjective_pairing _)).
Defined.

Lemma wrap64_high (n : Z) : 2 ^ 63 <= n < 2 ^ 64 -> wrap64 n = n - 2 ^ 64.
Proof.
  intros H. unfold wrap64.
  replace (n + 2 ^ 63) with ((n - 2 ^ 63) + 1 * 2 ^ 64) by lia.
  rewrite Z.mod_add by lia. rewrite Z.mod_small; lia.
Qed.

(** X8.  The end time of a created auction.  For a duration of 0 to
    2562047 hours the auction ends that many hours after the second clock
    reading.  The duration is not checked: a negative one, down to -2562047
    hours, gives an end time before the auction was created, and so does a
    duration from 2562048 to 5124095 hours, whose nanoseconds wrap around 64
    bits. *)
Theorem createAuction_end_time
    (method : string) (body : option CreateAuctionRequest) (net : Net)
    (now1 now2 : Z) (w w' : World) (a : Auction) :
  createAuctionHandler method body net now1 now2 w = (w', Json StatusCreated a) ->
  exists req,
    body = Some req /\
    (0 <= reqDuration req <= max_hours ->
     EndTime a = now2 + reqDuration req * Hour) /\
    (- max_hours <= reqDuration req < 0 -> EndTime a < now2) /\
    (max_hours < reqDuration req <= 5124095 -> EndTime a < now2).
Proof.
  intros H.
  destruct (createAuction_cases _ _ _ _ _ _ _ _ H)
    as [(_ & code & msg & E & _) | (req & seller & _ & -> & _ & _ & _ & E)];
    [discriminate | ].
  inv E. exists req. split; [reflexivity | ].
  unfold opened, max_hours, Hour. cbn [EndTime].
  split; [ | split]; intros Hd.
  - rewrite wrap64_small; lia.
  - rewrite wrap64_small; lia.
  - rewrite wrap64_high; lia.
Qed.

Lemma createAuction_end_time_witness :
  exists req,
    Some (mkCreateAuctionRequest "vase" 1 2562048 (of_Z 100) zero) = Some req /\
    (0 <= reqDuration req <= max_hours ->
     EndTime (opened init (mkCreateAuctionRequest "vase" 1 2562048 (of_Z 100) zero)
                1000 1000) = 1000 + reqDuration req * Hour) /\
    (- max_hours <= reqDuration req < 0 ->
     EndTime (opened init (mkCreateAuctionRequest "vase" 1 2562048 (of_Z 100) zero)
                1000 1000) < 1000) /\
    (max_hours < reqDuration req <= 5124095 ->
     EndTime (opened init (mkCreateAuctionRequest "vase" 1 2562048 (of_Z 100) zero)
                1000 1000) < 1000).
Proof.
  refine (createAuction_end_time
            "POST" (Some (mkCreateAuctionRequest "vase" 1 2562048 (of_Z 100) zero))
            Delivered 1000 1000 {| local := init; remote := four_users |}
            (fst (createAuctionHandler "POST"
                    (Some (mkCreateAuctionRequest "vase" 1 2562048 (of_Z 100) zero))
                    Delivered 1000 1000 {| local := init; remote := four_users |}))
            _ _).
  vm_compute. reflexivity.
Defined.

End Creation.

(** ** The auction service: what the table and the ledgers keep *)

Section StoreInvariants.

Import AuctionService.

Lemma store_wf_init : store_wf init.
Proof.
  split; intros k x H; cbn in H; rewrite lookup_empty in H; discriminate.
Qed.

Lemma ledger_commit_eq (now : Z) (a : Auction) (b : Bid) (s : State) :
  ledger (fst (commitBid now a b s)) (AuctionID b)
    = ledger s (AuctionID b) ++ [withTimestamp b now].
Proof. unfold ledger at 1. rewrite commitBid_bids. apply ledger_insert_eq. Qed.

Lemma ledger_commit_ne (now : Z) (a : Auction) (b : Bid) (s : State) (k : Z) :
  AuctionID b <> k -> ledger (fst (commitBid now a b s)) k = ledger s k.
Proof.
  intros Hk. unfold ledger. rewrite commitBid_bids, lookup_insert_ne by exact Hk.
  reflexivity.
Qed.

Lemma last_amount_snoc (start : float64) (l : list Bid) (b : Bid) :
  last_amount start (l ++ [b]) = Amount b.
Proof. unfold last_amount. rewrite last_snoc. reflexivity. Qed.

(** The write of [commitBid] keeps the table and the ledgers well formed
    when the copy written back is the stored record up to its price. *)
Lemma commit_store_wf (now : Z) (a : Auction) (b : Bid) (s : State) :
  store_wf s -> copy_agrees s (Debited a b) ->
  store_wf (fst (commitBid now a b s)).
Proof.
  intros [Hfresh Hid Hledger Hprice] Hcopy.
  destruct (Hcopy a b eq_refl) as (stored & Hs & Ha).
  split.
  - intros k x. rewrite commitBid_auctions, commitBid_nextAuctionID.
    destruct (decide (AuctionID b = k)) as [<- | Hk].
    + intros _. apply (Hfresh _ _ Hs).
    + rewrite lookup_insert_ne by exact Hk. apply Hfresh.
  - intros k x. rewrite commitBid_auctions.
    destruct (decide (AuctionID b = k)) as [<- | Hk].
    + rewrite lookup_insert_eq. intros E. inv E. cbn [ID withCurrentBid].
      rewrite <- (Hid _ _ Hs). rewrite <- Ha. reflexivity.
    + rewrite lookup_insert_ne by exact Hk. apply Hid.
  - intros k l. rewrite commitBid_auctions, commitBid_bids.
    destruct (decide (AuctionID b = k)) as [<- | Hk].
    + rewrite !lookup_insert_eq. intros E. inv E. split; [eauto | ].
      apply Forall_app. split; [ | repeat constructor].
      unfold ledger. destruct (bids s !! AuctionID b) as [l | ] eqn:Hl; cbn.
      * apply (Hledger _ _ Hl).
      * constructor.
    + rewrite !lookup_insert_ne by exact Hk. apply Hledger.
  - intros k x. rewrite commitBid_auctions.
    destruct (decide (AuctionID b = k)) as [<- | Hk].
    + rewrite lookup_insert_eq. intros E. inv E.
      rewrite ledger_commit_eq, last_amount_snoc. reflexivity.
    + rewrite lookup_insert_ne, ledger_commit_ne by exact Hk. apply Hprice.
Qed.

Lemma advance_store_wf (env : Env) (r : InFlight) (w : World) :
  store_wf (local w) -> copy_agrees (local w) r ->
  store_wf (local (fst (advance env r w))).
Proof.
  intros Hw Hr. destruct (advance env r w) as [w' r'] eqn:H. cbn [fst].
  destruct (advance_local _ _ _ _ _ H) as [-> | (a & b & -> & -> & _)];
    [exact Hw | ].
  apply commit_store_wf; assumption.
Qed.

(** What [createAuctionHandler] does to a well-formed store whose id
    counter can still grow. *)
Lemma createAuction_store_facts
    (method : string) (body : option CreateAuctionRequest) (net : Net)
    (now1 now2 : Z) (w w' : World) (resp : Response Auction) :
  store_wf (local w) ->
  can_grow (nextAuctionID (local w)) ->
  createAuctionHandler method body net now1 now2 w = (w', resp) ->
  store_wf (local w') /\
  (forall k a, auctions (local w) !! k = Some a ->
     auctions (local w') !! k = Some a /\ ledger (local w') k = ledger (local w) k) /\
  (forall a, resp = Json StatusCreated a ->
     auctions (local w) !! ID a = None /\
     auctions (local w') !! ID a = Some a /\
     ledger (local w') (ID a) = [] /\
     nextAuctionID (local w') = ID a + 1).
Proof.
  intros Hw Hgrow H.
  destruct (createAuction_cases _ _ _ _ _ _ _ _ H)
    as [(-> & code & msg & -> & _)
       | (req & seller & _ & _ & _ & _ & -> & ->)].
  { split; [exact Hw | ]. split; [auto | ]. intros a E. discriminate. }
  destruct Hw as [Hfresh Hid Hledger Hprice].
  set (next := nextAuctionID (local w)) in *.
  assert (Hnone : auctions (local w) !! next = None).
  { destruct (auctions (local w) !! next) as [x | ] eqn:Hx; [ | reflexivity].
    pose proof (Hfresh _ _ Hx). lia. }
  assert (Hempty : bids (local w) !! next = None).
  { destruct (bids (local w) !! next) as [l | ] eqn:Hl; [ | reflexivity].
    destruct (Hledger _ _ Hl) as [[x Hx] _]. congruence. }
  assert (Hnext : wrap64 (next + 1) = next + 1)
    by (apply wrap64_small; unfold can_grow in Hgrow; lia).
  cbn [local]. split; [ | split].
  - split; cbn [auctions bids nextAuctionID]; unfold ledger; cbn [bids].
    + intros k x. rewrite Hnext. destruct (decide (next = k)) as [<- | Hk].
      * intros _. lia.
      * rewrite lookup_insert_ne by exact Hk. intros Hx.
        pose proof (Hfresh _ _ Hx). lia.
    + intros k x. destruct (decide (next = k)) as [<- | Hk].
      * rewrite lookup_insert_eq. intros E. inv E. reflexivity.
      * rewrite lookup_insert_ne by exact Hk. apply Hid.
    + intros k l Hl. destruct (Hledger _ _ Hl) as [[x Hx] Hall].
      split; [ | exact Hall].
      rewrite lookup_insert_ne by congruence. eauto.
    + intros k x. destruct (decide (next = k)) as [<- | Hk].
      * rewrite lookup_insert_eq. intros E. inv E.
        rewrite Hempty. reflexivity.
      * rewrite lookup_insert_ne by exact Hk. apply Hprice.
  - intros k x Hx. cbn [auctions]. split; [ | reflexivity].
    rewrite lookup_insert_ne by congruence. exact Hx.
  - intros x E. inv E. cbn [ID opened auctions nextAuctionID].
    fold next. rewrite lookup_insert_eq, Hnext.
    unfold ledger. cbn [bids]. rewrite Hempty. auto.
Qed.

(** X9.  While the id counter has not reached the end of its range,
    [createAuctionHandler] keeps the table and the ledgers well formed and
    never replaces anything: every auction stored before is stored
    unchanged with its ledger, and an auction answered 201 is new, with an
    empty ledger. *)
Theorem createAuction_keeps_the_store
    (method : string) (body : option CreateAuctionRequest) (net : Net)
    (now1 now2 : Z) (w w' : World) (resp : Response Auction) :
  store_wf (local w) ->
  can_grow (nextAuctionID (local w)) ->
  createAuctionHandler method body net now1 now2 w = (w', resp) ->
  store_wf (local w') /\
  (forall k a, auctions (local w) !! k = Some a ->
     auctions (local w') !! k = Some a /\ ledger (local w') k = ledger (local w) k) /\
  (forall a, resp = Json StatusCreated a ->
     auctions (local w) !! ID a = None /\
     auctions (local w') !! ID a = Some a /\
     ledger (local w') (ID a) = [] /\
     nextAuctionID (local w') = ID a + 1).
Proof. exact (createAuction_store_facts method body net now1 now2 w w' resp). Qed.

Lemma market_store_wf (startBid : Z) : store_wf (local (market startBid)).
Proof.
  unfold market, open_auction.
  refine (proj1 (createAuction_store_facts
                   _ _ _ _ _ {| local := init; remote := four_users |} _ _
                   store_wf_init _ (surjective_pairing _))).
  unfold can_grow. cbn. lia.
Qed.

Lemma createAuction_keeps_the_store_witness :
  let w := {| local := init; remote := four_users |} in
  let run := createAuctionHandler "POST"
               (Some (mkCreateAuctionRequest "vase" 1 1 (of_Z 100) zero))
               Delivered 1000 1000 w in
  store_wf (local (fst run)) /\
  (forall k a, auctions (local w) !! k = Some a ->
     auctions (local (fst run)) !! k = Some a /\
     ledger (local (fst run)) k = ledger (local w) k) /\
  (forall a, snd run = Json StatusCreated a ->
     auctions (local w) !! ID a = None /\
     auctions (local (fst run)) !! ID a = Some a /\
     ledger (local (fst run)) (ID a) = [] /\
     nextAuctionID (local (fst run)) = ID a + 1).
Proof.
  cbv zeta.
  refine (createAuction_keeps_the_store
            "POST" (Some (mkCreateAuctionRequest "vase" 1 1 (of_Z 100) zero))
            Delivered 1000 1000 {| local := init; remote := four_users |}
            _ _ store_wf_init _ (surjective_pairing _)).
  unfold can_grow. cbn. lia.
Defined.

(** X10.  Under every interleaving of bid requests the table and the
    ledgers stay well formed; in particular the current price of every
    auction is the amount of the last bid of its ledger, or its start bid
    while the ledger is empty, also after a stale copy was written back. *)
Theorem schedule_keeps_the_store (order : list nat) (sys : System) :
  copies_agree sys ->
  store_wf (local (fst sys)) ->
  store_wf (local (fst (schedule order sys))) /\
  forall k a,
    auctions (local (fst (schedule order sys))) !! k = Some a ->
    CurrentBid a = last_amount (StartBid a) (ledger (local (fst (schedule order sys))) k).
Proof.
  intros Hc Hw.
  assert (H : store_wf (local (fst (schedule order sys)))).
  { revert sys Hc Hw. induction order as [ | i order IH]; intros sys Hc Hw;
      [exact Hw | ].
    change (schedule (i :: order) sys) with (schedule order (schedule1 i sys)).
    apply IH; [apply copies_agree_schedule1, Hc | ].
    unfold schedule1.
    destruct (snd sys !! i) as [[env r] | ] eqn:Hi; [ | exact Hw].
    pose proof (advance_store_wf env r (fst sys) Hw
                  (proj1 (Forall_lookup _ _) Hc i (env, r) Hi)) as Hstep.
    destruct (advance env r (fst sys)) as [w' r']. exact Hstep. }
  split; [exact H | apply (wf_price _ H)].
Qed.

Lemma schedule_keeps_the_store_witness :
  store_wf (local (fst (schedule both_validated_first two_bidders))) /\
  forall k a,
    auctions (local (fst (schedule both_validated_first two_bidders))) !! k = Some a ->
    CurrentBid a =
      last_amount (StartBid a)
        (ledger (local (fst (schedule both_validated_first two_bidders))) k).
Proof.
  refine (schedule_keeps_the_store both_validated_first two_bidders _ _).
  - exact (copies_agree_received (market 50)
             [ (calm 2000, "POST", Some (bid 4 150));
               (calm 2001, "POST", Some (bid 2 100)) ]).
  - exact (market_store_wf 50).
Defined.

End StoreInvariants.

(** ** Bids served in turn: the ledgers rise *)

Section RisingLedgers.

Import AuctionService.

Lemma last_cons_default (low y : float64) (l : list float64) :
  default low (last (y :: l)) = default y (last l).
Proof.
  destruct l as [ | z l]; [reflexivity | ].
  change (last (y :: z :: l)) with (last (z :: l)).
  destruct (last (z :: l)) eqn:E; [reflexivity | ].
  apply last_None in E. discriminate.
Qed.

Lemma rising_snoc (low : float64) (l : list float64) (x : float64) :
  rising low l -> ltb (default low (last l)) x = true -> rising low (l ++ [x]).
Proof.
  revert low. induction l as [ | y l IH]; intros low Hl Hx.
  - cbn in *. auto.
  - destruct Hl as [Hy Hl]. rewrite last_cons_default in Hx.
    cbn. split; [exact Hy | apply IH; assumption].
Qed.

Lemma last_amount_fmap (start : float64) (l : list Bid) :
  last_amount start l = default start (last (Amount <$> l)).
Proof. unfold last_amount. rewrite fmap_last. destruct (last l); reflexivity. Qed.

Lemma stored_copy_agrees (s : State) (a : Auction) (b : Bid) :
  auctions s !! AuctionID b = Some a -> copy_agrees s (Debited a b).
Proof.
  intros Ha a' b' E. inv E. exists a'. split; [exact Ha | apply withCurrentBid_same].
Qed.

(** One run of [placeBidHandler] keeps the three invariants together. *)
Lemma placeBid_keeps_rising (env : Env) (method : string) (body : option Bid)
    (w : World) :
  prices_finite (local w) -> store_wf (local w) -> ledgers_rising (local w) ->
  store_wf (local (fst (placeBidHandler env method body w))) /\
  ledgers_rising (local (fst (placeBidHandler env method body w))).
Proof.
  intros Hfin Hwf Hrise.
  destruct (placeBidHandler env method body w) as [w' resp] eqn:H. cbn [fst].
  destruct (placeBid_cases _ _ _ _ _ _ H)
    as [[-> _] | (a & b & user & Hv & Hamt & _ & _ & _ & -> & _)]; [auto | ].
  destruct (validateBid_inr _ _ _ _ _ _ Hv) as (_ & _ & Ha & _ & Hle).
  cbn [local]. split.
  - apply commit_store_wf; [exact Hwf | apply stored_copy_agrees, Ha].
  - intros k x. rewrite commitBid_auctions.
    destruct (decide (AuctionID b = k)) as [<- | Hk].
    + rewrite lookup_insert_eq. intros E. inv E.
      rewrite ledger_commit_eq, fmap_app. cbn [withCurrentBid StartBid].
      apply rising_snoc; [apply (Hrise _ _ Ha) | ].
      rewrite <- last_amount_fmap, <- (wf_price _ Hwf _ _ Ha).
      cbn [fmap list_fmap withTimestamp Amount].
      apply leb_false_ltb; [ | | exact Hle].
      * destruct (Amount b); cbn in *; congruence.
      * specialize (Hfin _ _ Ha). destruct (CurrentBid a); cbn in *; congruence.
    + rewrite lookup_insert_ne, ledger_commit_ne by exact Hk. apply Hrise.
Qed.

(** X11.  Bids served one after the other keep every ledger rising: on a
    well-formed store of finite prices whose ledgers rise, after any
    requests served in turn the prices are still finite, the store is still
    well formed, and in every ledger each amount is strictly above the one
    before it, the first one above the auction's start bid. *)
Theorem served_in_turn_ledgers_rise
    (reqs : list (Env * string * option Bid)) (w : World) :
  prices_finite (local w) -> store_wf (local w) -> ledgers_rising (local w) ->
  prices_finite (local (fst (serve reqs w))) /\
  store_wf (local (fst (serve reqs w))) /\
  ledgers_rising (local (fst (serve reqs w))).
Proof.
  revert w. induction reqs as [ | [[env method] body] reqs IH];
    intros w Hfin Hwf Hrise; [cbn; auto | ].
  cbn [serve].
  pose proof (prices_finite_placeBid env method body w Hfin) as Hfin1.
  destruct (placeBid_keeps_rising env method body w Hfin Hwf Hrise) as [Hwf1 Hrise1].
  destruct (placeBidHandler env method body w) as [w1 resp]. cbn [fst] in *.
  specialize (IH w1 Hfin1 Hwf1 Hrise1).
  destruct (serve reqs w1) as [w2 resps]. exact IH.
Qed.

Lemma market_ledgers_rising (startBid : Z) : ledgers_rising (local (market startBid)).
Proof.
  intros k a _.
  assert (Hb : bids (local (market startBid)) = ∅).
  { unfold market, open_auction.
    destruct (createAuctionHandler _ _ _ _ _ _) as [w' resp] eqn:H.
    destruct (createAuction_cases _ _ _ _ _ _ _ _ H)
      as [(-> & _) | (req & seller & _ & _ & _ & _ & -> & _)]; reflexivity. }
  unfold ledger. rewrite Hb, lookup_empty. exact I.
Qed.

Lemma served_in_turn_ledgers_rise_witness :
  let reqs := [ (calm 2000, "POST", Some (bid 4 110));
                (calm 2001, "POST", Some (bid 2 105));
                (calm 2002, "POST", Some (bid 2 120)) ] in
  prices_finite (local (fst (serve reqs (market 100)))) /\
  store_wf (local (fst (serve reqs (market 100)))) /\
  ledgers_rising (local (fst (serve reqs (market 100)))).
Proof.
  cbv zeta.
  refine (served_in_turn_ledgers_rise _ (market 100) _
            (market_store_wf 100) (market_ledgers_rising 100)).
  apply market_prices_finite. vm_compute. reflexivity.
Defined.

End RisingLedgers.

(** ** [placeBidHandler]: the answers of a valid bid *)

Section ValidBid.

Import AuctionService.

(** A sum with a finite amount is NaN only if the other operand is. *)
Lemma add_finite_not_nan (x y : float64) :
  is_nan x = false -> is_finite y = true -> is_nan (add x y) = false.
Proof.
  destruct x as [sx | sx | | sx mx ex], y as [sy | sy | | sy my ey];
    cbn; try discriminate; intros; try reflexivity.
  - destruct sx, sy; reflexivity.
  - apply binary_normalize_not_nan.
Qed.

Lemma geb_not_nan (x y : float64) : geb x y = true -> is_nan x = false.
Proof. destruct x, y; cbn; auto; discriminate. Qed.

(** [deductFunds] leaves the user service changed and the handler stopped
    only when the reply to an accepted debit was lost. *)
Lemma deductFunds_changed (net : Net) (newBid : Bid) (u u' : UserService.State)
    (resp : Response BidAccepted) :
  deductFunds net newBid u = (u', Some resp) -> u' <> u ->
  net = TimedOut /\
  resp = Error StatusServiceUnavailable "User service unavailable".
Proof.
  unfold deductFunds.
  destruct (is_finite (neg (Amount newBid))); cbn [negb];
    [ | intros H; inv H; contradiction ].
  unfold call. destruct net.
  - destruct (UserService.updateBalanceHandler _ _ u) as [u1 r] eqn:Hupd.
    destruct (updateBalance_cases _ _ _ _ _ Hupd)
      as [(-> & code & msg & -> & Hcode)
         | (update & user & _ & Hb & Hu & Hlt & -> & ->)].
    + cbn [StatusCode]. destruct (Z.eqb_spec code StatusOK); [contradiction | ].
      cbn. intros H. inv H. contradiction.
    + cbn. discriminate.
  - intros H. inv H. contradiction.
  - destruct (UserService.updateBalanceHandler _ _ u).
    intros H. inv H. auto.
Qed.

(** X12.  A bid that passes the validation but whose bidder the user
    service does not know is answered 500 "Failed to check user balance",
    and nothing is written. *)
Theorem bid_by_unknown_user_is_500
    (env : Env) (newBid : Bid) (auction : Auction) (w : World) :
  auctions (local w) !! AuctionID newBid = Some auction ->
  After (now_validate env) (EndTime auction) = false ->
  leb (Amount newBid) (CurrentBid auction) = false ->
  net_check env = Delivered ->
  UserService.users (remote w) !! UserID newBid = None ->
  placeBidHandler env "POST" (Some newBid) w =
    (w, Error StatusInternalServerError "Failed to check user balance").
Proof.
  intros Ha Hend Hle Hnet Hu. unfold placeBidHandler.
  rewrite (validateBid_pass _ _ _ _ Ha Hend Hle).
  unfold checkFunds, call, UserService.checkBalanceHandler.
  cbn [String.eqb negb]. rewrite Hnet, Hu. cbn. rewrite World_eta. reflexivity.
Qed.

Lemma bid_by_unknown_user_is_500_witness :
  placeBidHandler (calm 2000) "POST" (Some (bid 9 120)) (market 100) =
    (market 100, Error StatusInternalServerError "Failed to check user balance").
Proof.
  refine (bid_by_unknown_user_is_500 (calm 2000) (bid 9 120)
            (mkAuction 1 "vase" 1 1000 closing_time (of_Z 100) (of_Z 100) zero)
            (market 100) _ _ _ _ _);
    vm_compute; reflexivity.
Defined.

(** X13.  A bid that passes the validation while the balance check cannot
    be completed (the user service is not reached, or its reply is lost) is
    answered 503 "User service unavailable", and nothing is written. *)
Theorem bid_with_unreachable_user_service_is_503
    (env : Env) (newBid : Bid) (auction : Auction) (w : World) :
  auctions (local w) !! AuctionID newBid = Some auction ->
  After (now_validate env) (EndTime auction) = false ->
  leb (Amount newBid) (CurrentBid auction) = false ->
  net_check env <> Delivered ->
  placeBidHandler env "POST" (Some newBid) w =
    (w, Error StatusServiceUnavailable "User service unavailable").
Proof.
  intros Ha Hend Hle Hnet. unfold placeBidHandler.
  rewrite (validateBid_pass _ _ _ _ Ha Hend Hle).
  unfold checkFunds, call, UserService.checkBalanceHandler.
  cbn [String.eqb negb].
  destruct (net_check env); [contradiction | | ].
  - rewrite World_eta. reflexivity.
  - destruct (UserService.users (remote w) !! UserID newBid);
      cbn; rewrite World_eta; reflexivity.
Qed.

Lemma bid_with_unreachable_user_service_is_503_witness :
  placeBidHandler (mkEnv 2000 Unreachable Delivered 2001) "POST"
    (Some (bid 2 120)) (market 100) =
    (market 100, Error StatusServiceUnavailable "User service unavailable").
Proof.
  refine (bid_with_unreachable_user_service_is_503
            (mkEnv 2000 Unreachable Delivered 2001) (bid 2 120)
            (mkAuction 1 "vase" 1 1000 closing_time (of_Z 100) (of_Z 100) zero)
            (market 100) _ _ _ _);
    try (vm_compute; reflexivity).
  discriminate.
Defined.



End ValidBid.

(** ** [placeBidHandler]: what an answer tells about the two stores *)

Section Answers.

Import AuctionService.

(** X15.  The balance check reads the amount from six decimals, the debit
    uses the amount itself.  A valid bid whose bidder holds at least the
    amount as the check reads it, but less than the amount, passes the check
    and is refused by the debit: it is answered 500 "Failed to deduct user
    balance" and not 402, and nothing is written. *)
Theorem bid_refused_by_the_debit_is_500
    (env : Env) (newBid : Bid) (auction : Auction) (user : UserService.User)
    (w : World) :
  auctions (local w) !! AuctionID newBid = Some auction ->
  After (now_validate env) (EndTime auction) = false ->
  leb (Amount newBid) (CurrentBid auction) = false ->
  net_check env = Delivered ->
  net_update env = Delivered ->
  UserService.users (remote w) !! UserID newBid = Some user ->
  is_finite (UserService.Balance user) = true ->
  geb (UserService.Balance user) (sprintf_f_parse (Amount newBid)) = true ->
  is_finite (Amount newBid) = true ->
  ltb (add (UserService.Balance user) (neg (Amount newBid))) zero = true ->
  placeBidHandler env "POST" (Some newBid) w =
    (w, Error StatusInternalServerError "Failed to deduct user balance").
Proof.
  intros Ha Hend Hle Hnet1 Hnet2 Hu Hfin Hge Hamt Hlt. unfold placeBidHandler.
  rewrite (validateBid_pass _ _ _ _ Ha Hend Hle).
  unfold checkFunds, call, UserService.checkBalanceHandler.
  cbn [String.eqb negb]. rewrite Hnet1, Hu. cbn. rewrite Hfin, Hge. cbn.
  unfold deductFunds, call. rewrite neg_finite, Hamt, Hnet2. cbn [negb].
  rewrite (updateBalance_insufficient _ user (remote w)) by assumption.
  cbn. rewrite World_eta. reflexivity.
Qed.

Lemma bid_refused_by_the_debit_is_500_witness :
  placeBidHandler (calm 2000) "POST" (Some (mkBid 2 1 just_above_150 0)) (market 100) =
    (market 100, Error StatusInternalServerError "Failed to deduct user balance").
Proof.
  refine (bid_refused_by_the_debit_is_500
            (calm 2000) (mkBid 2 1 just_above_150 0)
            (mkAuction 1 "vase" 1 1000 closing_time (of_Z 100) (of_Z 100) zero)
            (UserService.mkUser 2 "bob" "bob@example.org" (of_Z 150))
            (market 100) _ _ _ _ _ _ _ _ _ _);
    vm_compute; reflexivity.
Defined.

Lemma commit_changes_the_store (now : Z) (a : Auction) (b : Bid) (s : State) :
  fst (commitBid now a b s) <> s.
Proof.
  intros E. apply (f_equal (fun s => length (ledger s (AuctionID b)))) in E.
  rewrite ledger_commit_eq, length_app in E. cbn in E. lia.
Qed.

(** X16.  The auction service is written exactly when the answer is 200.
    The user service is written only when the answer is 200, or when it is
    503 and the reply to the debit was lost. *)
Theorem answer_tells_what_was_written
    (env : Env) (method : string) (body : option Bid) (w w' : World)
    (resp : Response BidAccepted) :
  placeBidHandler env method body w = (w', resp) ->
  (StatusCode resp = StatusOK <-> local w' <> local w) /\
  (remote w' <> remote w ->
   StatusCode resp = StatusOK \/
   (StatusCode resp = StatusServiceUnavailable /\ net_update env = TimedOut)).
Proof.
  intros H. split.
  - destruct (placeBid_cases _ _ _ _ _ _ H)
      as [(Hsame & code & msg & -> & Hcode & _)
         | (a & b & user & _ & _ & _ & _ & _ & -> & ->)].
    + cbn. split; [contradiction | ]. intros Hne. contradiction.
    + cbn [local StatusCode bid_accepted]. split; [ | reflexivity].
      intros _. apply commit_changes_the_store.
  - revert H. unfold placeBidHandler.
    destruct (validateBid method body (now_validate env) (local w))
      as [r | [auction newBid]].
    { intros E. inv E. contradiction. }
    pose proof (checkFunds_reads (net_check env) newBid (remote w)) as Hr.
    destruct (checkFunds (net_check env) newBid (remote w)) as [u [r | ]].
    { cbn in Hr. subst u. intros E. inv E. cbn. contradiction. }
    cbn in Hr. subst u. cbn [local remote].
    destruct (deductFunds (net_update env) newBid (remote w)) as [u' [r | ]] eqn:Hd.
    + intros E. inv E. cbn [remote]. intros Hne. right.
      destruct (deductFunds_changed _ _ _ _ _ Hd Hne) as [-> ->]. auto.
    + cbn. intros E. inv E. auto.
Qed.

Lemma answer_tells_what_was_written_witness :
  let run := placeBidHandler (mkEnv 2000 Delivered TimedOut 2001) "POST"
               (Some (bid 2 120)) (market 100) in
  (StatusCode (snd run) = StatusOK <-> local (fst run) <> local (market 100)) /\
  (remote (fst run) <> remote (market 100) ->
   StatusCode (snd run) = StatusOK \/
   (StatusCode (snd run) = StatusServiceUnavailable /\ TimedOut = TimedOut)).
Proof.
  cbv zeta.
  exact (answer_tells_what_was_written
           (mkEnv 2000 Delivered TimedOut 2001) "POST" (Some (bid 2 120))
           (market 100) _ _ (surjective_pairing _)).
Defined.

(** X17.  An accepted bid is paid once and by the bidder: its amount is a
    finite number, the bidder was a stored user, the bidder's balance is now
    the old balance plus the negated amount and is not below zero, and every
    other user and the id counter of the user service are as they were. *)
Theorem accepted_bid_debits_the_bidder_only
    (env : Env) (method : string) (body : option Bid) (w w' : World)
    (resp : Response BidAccepted) :
  placeBidHandler env method body w = (w', resp) ->
  StatusCode resp = StatusOK ->
  exists newBid before after,
    body = Some newBid /\
    is_finite (Amount newBid) = true /\
    UserService.users (remote w) !! UserID newBid = Some before /\
    UserService.users (remote w') !! UserID newBid = Some after /\
    UserService.Balance after
      = add (UserService.Balance before) (neg (Amount newBid)) /\
    nonneg (UserService.Balance after) = true /\
    UserService.ID after = UserService.ID before /\
    UserService.Name after = UserService.Name before /\
    UserService.Email after = UserService.Email before /\
    (forall k, k <> UserID newBid ->
       UserService.users (remote w') !! k = UserService.users (remote w) !! k) /\
    UserService.nextUserID (remote w') = UserService.nextUserID (remote w).
Proof.
  intros H Hcode.
  destruct (placeBid_cases _ _ _ _ _ _ H)
    as [(_ & code & msg & -> & Hne & _)
       | (a & b & user & Hv & Hfin & Hu & Hge & Hlt & -> & _)].
  { cbn in Hcode. contradiction. }
  destruct (validateBid_inr _ _ _ _ _ _ Hv) as (_ & -> & _).
  exists b, user, (UserService.credit user (neg (Amount b))).
  cbn [remote debited UserService.users UserService.nextUserID].
  rewrite lookup_insert_eq.
  split; [reflexivity | ]. split; [exact Hfin | ]. split; [exact Hu | ].
  split; [reflexivity | ]. split; [reflexivity | ]. split.
  { cbn [UserService.credit UserService.Balance].
    apply nonneg_of_not_below; [ | exact Hlt].
    apply add_finite_not_nan; [apply (geb_not_nan _ _ Hge) | ].
    rewrite neg_finite. exact Hfin. }
  repeat (split; [reflexivity | ]). split; [ | reflexivity].
  intros k Hk. apply lookup_insert_ne. congruence.
Qed.

Lemma accepted_bid_debits_the_bidder_only_witness :
  let run := placeBidHandler (calm 2000) "POST" (Some (bid 2 120)) (market 100) in
  exists newBid before after,
    Some (bid 2 120) = Some newBid /\
    is_finite (Amount newBid) = true /\
    UserService.users (remote (market 100)) !! UserID newBid = Some before /\
    UserService.users (remote (fst run)) !! UserID newBid = Some after /\
    UserService.Balance after
      = add (UserService.Balance before) (neg (Amount newBid)) /\
    nonneg (UserService.Balance after) = true /\
    UserService.ID after = UserService.ID before /\
    UserService.Name after = UserService.Name before /\
    UserService.Email after = UserService.Email before /\
    (forall k, k <> UserID newBid ->
       UserService.users (remote (fst run)) !! k
         = UserService.users (remote (market 100)) !! k) /\
    UserService.nextUserID (remote (fst run))
      = UserService.nextUserID (remote (market 100)).
Proof.
  cbv zeta.
  refine (accepted_bid_debits_the_bidder_only
            (calm 2000) "POST" (Some (bid 2 120)) (market 100) _
            (bid_accepted (of_Z 120)) _ _).
  - vm_compute. reflexivity.
  - reflexivity.
Defined.

(** A posted bid on a stored auction handled no later than the end time is
    never answered 403. *)
Lemma bid_up_to_end_time_is_not_ended (env : Env) (newBid : Bid)
    (auction : Auction) (w : World) :
  auctions (local w) !! AuctionID newBid = Some auction ->
  After (now_validate env) (EndTime auction) = false ->
  StatusCode (snd (placeBidHandler env "POST" (Some newBid) w)) <> StatusForbidden.
Proof.
  intros Ha Hend.
  destruct (leb (Amount newBid) (CurrentBid auction)) eqn:Hle.
  { rewrite (placeBid_too_low env newBid auction w Ha Hend Hle). discriminate. }
  unfold placeBidHandler. rewrite (validateBid_pass _ _ _ _ Ha Hend Hle).
  destruct (checkFunds (net_check env) newBid (remote w)) as [u [resp | ]] eqn:Hc.
  { destruct (checkFunds_Some _ _ _ _ _ Hc) as (code & msg & -> & [-> | [-> | ->]]);
      discriminate. }
  cbn [local remote].
  destruct (deductFunds (net_update env) newBid u) as [u' [resp | ]] eqn:Hd.
  { destruct (deductFunds_Some _ _ _ _ _ Hd) as (code & msg & -> & [-> | ->] & _);
      discriminate. }
  cbn. discriminate.
Qed.

(** X18.  A posted bid on a stored auction is answered 403 exactly when the
    clock is strictly after the auction's end time.  In particular an
    auction that [listAuctionsHandler] would keep at a reading of the clock
    is not refused a bid made up to that reading. *)
Theorem bid_is_ended_iff_after_end_time
    (env : Env) (newBid : Bid) (auction : Auction) (w : World) :
  auctions (local w) !! AuctionID newBid = Some auction ->
  (StatusCode (snd (placeBidHandler env "POST" (Some newBid) w)) = StatusForbidden
   <-> EndTime auction < now_validate env) /\
  (forall t, Before t (EndTime auction) = true -> now_validate env <= t ->
     StatusCode (snd (placeBidHandler env "POST" (Some newBid) w)) <> StatusForbidden).
Proof.
  intros Ha. split; [split | ].
  - intros Hcode. destruct (After (now_validate env) (EndTime auction)) eqn:Hend.
    + unfold After in Hend. lia.
    + destruct (bid_up_to_end_time_is_not_ended env newBid auction w Ha Hend Hcode).
  - intros Hlt.
    rewrite (placeBid_ended env newBid auction w Ha); [reflexivity | ].
    unfold After. lia.
  - intros t Ht Hnow. apply (bid_up_to_end_time_is_not_ended env newBid auction w Ha).
    unfold After, Before in *. lia.
Qed.

Lemma bid_is_ended_iff_after_end_time_witness :
  (StatusCode (snd (placeBidHandler (calm (closing_time + 1)) "POST"
                      (Some (bid 2 120)) (market 100))) = StatusForbidden
   <-> closing_time < now_validate (calm (closing_time + 1))) /\
  (forall t, Before t closing_time = true ->
     now_validate (calm (closing_time + 1)) <= t ->
     StatusCode (snd (placeBidHandler (calm (closing_time + 1)) "POST"
                        (Some (bid 2 120)) (market 100))) <> StatusForbidden).
Proof.
  refine (bid_is_ended_iff_after_end_time
            (calm (closing_time + 1)) (bid 2 120)
            (mkAuction 1 "vase" 1 1000 closing_time (of_Z 100) (of_Z 100) zero)
            (market 100) _).
  vm_compute. reflexivity.
Defined.

End Answers.

(** ** The user service: a balance check and the debit that follows *)

Section CheckThenDebit.

Import UserService.










End CheckThenDebit.

(** ** The auction service: listing *)

Section Listing.

Import AuctionService.

(** X20.  [getAllAuctionsHandler] answers with the stored auctions and no
    other, as many as the table holds, and [listAuctionsHandler] with
    exactly those whose end time is strictly after the clock reading taken
    for them; neither writes. *)
Theorem auctions_are_listed_as_stored (clock : Z -> Z) (s : State) :
  exists everything active,
    getAllAuctionsHandler "GET" s = (s, Json StatusOK everything) /\
    listAuctionsHandler "GET" clock s = (s, Json StatusOK active) /\
    length everything = size (auctions s) /\
    (forall a, a ∈ everything <-> exists k, auctions s !! k = Some a) /\
    (forall a, a ∈ active <->
               exists k, auctions s !! k = Some a /\ clock k < EndTime a).
Proof.
  unfold getAllAuctionsHandler, listAuctionsHandler. cbn [String.eqb negb].
  do 2 eexists. split; [reflexivity | ]. split; [reflexivity | ].
  split; [ | split].
  - rewrite length_fmap. apply length_map_to_list.
  - intros a. rewrite list_elem_of_fmap. split.
    + intros ([k x] & -> & Hin). exists k. apply elem_of_map_to_list, Hin.
    + intros (k & Hk). exists (k, a). split; [reflexivity | ].
      apply elem_of_map_to_list, Hk.
  - intros a. rewrite list_elem_of_fmap. split.
    + intros ([k x] & -> & Hin).
      apply list_elem_of_In, filter_In in Hin. destruct Hin as [Hin Hopen].
      apply list_elem_of_In, elem_of_map_to_list in Hin.
      exists k. split; [exact Hin | ]. unfold Before in Hopen. cbn in *. lia.
    + intros (k & Hk & Hopen). exists (k, a). split; [reflexivity | ].
      apply list_elem_of_In, filter_In. split.
      * apply list_elem_of_In, elem_of_map_to_list, Hk.
      * unfold Before. cbn. lia.
Qed.

End Listing.

(** ** Interleaved requests, from their reception on *)

Section FromReception.

Import AuctionService.



(** X22.  In every schedule the ledger of an auction grows by exactly one
    entry at each commit of a bid on that auction and at no other step: its
    length after the schedule is its length before plus the number of those
    commits. *)
Theorem ledger_grows_by_the_commits_of_a_schedule
    (id : Z) (order : list nat) (sys : System) :
  length (ledger (local (fst (schedule order sys))) id) =
    (length (ledger (local (fst sys)) id) + commits_along id order sys)%nat.
Proof. exact (interleaved_ledger_length id order sys). Qed.

(** X23.  The validation of a request never writes: a request that has
    just been received leaves both services as they were when it moves,
    whatever it is and whatever else is in flight; it then either holds
    the stored record of the auction of its decoded bid, or has been
    answered with an error. *)
Theorem validation_step_writes_nothing
    (i : nat) (w : World) (rest : list (Env * InFlight)) (env : Env)
    (method : string) (body : option Bid) :
  rest !! i = Some (env, Received method body) ->
  fst (schedule1 i (w, rest)) = w /\
  exists r, snd (schedule1 i (w, rest)) = <[i := (env, r)]> rest /\
    match r with
    | Validated auction newBid =>
        body = Some newBid /\
        auctions (local w) !! AuctionID newBid = Some auction
    | Replied resp => StatusCode resp <> StatusOK
    | _ => False
    end.
Proof.
  intros Hi. unfold schedule1. cbn [fst snd]. rewrite Hi. cbn [advance].
  destruct (validateBid method body (now_validate env) (local w))
    as [resp | [auction newBid]] eqn:Hv; cbn [fst snd].
  - split; [reflexivity | ]. eexists. split; [reflexivity | ].
    destruct (validateBid_inl _ _ _ _ _ Hv) as (code & msg & -> & Hc).
    destruct Hc as [-> | [-> | [-> | ->]]]; discriminate.
  - split; [reflexivity | ]. eexists. split; [reflexivity | ].
    destruct (validateBid_inr _ _ _ _ _ _ Hv) as (_ & -> & Ha & _). auto.
Qed.

Lemma validation_step_writes_nothing_witness :
  fst (schedule1 1 two_bidders) = market 50 /\
  exists r, snd (schedule1 1 two_bidders)
            = <[1%nat := (calm 2001, r)]> (snd two_bidders) /\
    match r with
    | Validated auction newBid =>
        Some (bid 2 100) = Some newBid /\
        auctions (local (market 50)) !! AuctionID newBid = Some auction
    | Replied resp => StatusCode resp <> StatusOK
    | _ => False
    end.
Proof.
  refine (validation_step_writes_nothing 1 (market 50) (snd two_bidders)
            (calm 2001) "POST" (Some (bid 2 100)) _).
  reflexivity.
Defined.

End FromReception.
